(** * Post-processing processors of SPINE and the GNN layer factories

    A shallow embedding of

    - [spine/post/reco/calo.py]: [CalorimetricEnergyProcessor] and
      [CalibrationProcessor];
    - [mlreco/models/layers/gnn/models/factories.py]: the three layer
      constructors.

    Python objects are references: particle objects and numpy arrays live in
    two stores and are named by their position in the store.  A method that
    can raise is a computation in a state-and-exception monad that keeps the
    store reached when the exception was raised, as Python does. *)

From Stdlib Require Import ZArith PrimFloat Floats.
From stdpp Require Import gmap strings list.

Open Scope string_scope.
Open Scope list_scope.
Open Scope nat_scope.

(** ** Python exceptions *)

(** The exceptions that the modelled code can raise, and the two error
    kinds that only the specification names, [ConfigurationError] and
    [ExpressionError].  [SystemError] stands for a dangling reference, which
    no Python state has. *)
Inductive Exn : Type :=
  | KeyError (key : string)
  | AttributeError (attr : string)
  | NameError (name : string)
  | TypeError
  | IndexError
  | ValueError
  | SyntaxError
  | UnitError
  | ConfigurationError
  | ExpressionError
  | CollaboratorError (code : Z)
  | SystemError.

Definition is_key_error (e : Exn) : bool :=
  match e with
  | KeyError _ => true
  | _ => false
  end.

(** ** Stateful computations that may raise *)

Definition M (S A : Type) : Type := S -> (Exn + A) * S.

Definition ret {S A : Type} (a : A) : M S A := fun s => (inr a, s).

Definition raise {S A : Type} (e : Exn) : M S A := fun s => (inl e, s).

Definition bind {S A B : Type} (m : M S A) (f : A -> M S B) : M S B :=
  fun s => match m s with
           | (inl e, s') => (inl e, s')
           | (inr a, s') => f a s'
           end.

Definition gets {S A : Type} (f : S -> A) : M S A := fun s => (inr (f s), s).

Definition modify {S : Type} (f : S -> S) : M S unit := fun s => (inr tt, f s).

Definition lift {S A : Type} (r : Exn + A) : M S A := fun s => (r, s).

Definition from_option {S A : Type} (e : Exn) (o : option A) : M S A :=
  match o with
  | Some a => ret a
  | None => raise e
  end.

Notation "'let!' x ':=' m 'in' k" := (bind m (fun x => k))
  (at level 10, x name, m at level 100, k at level 200).
Notation "m ';;' k" := (bind m (fun _ => k))
  (at level 100, k at level 200, right associativity).

(** [for x in xs: body(x)] *)
Fixpoint for_each {S X : Type} (xs : list X) (body : X -> M S unit) : M S unit :=
  match xs with
  | [] => ret tt
  | x :: xs' => body x ;; for_each xs' body
  end.

(** ** numpy index assignment *)

Section Numpy.
Context {A : Type}.

(** The element-wise writes of [arr[idx] = vals]: a later write to a
    repeated position wins. *)
Fixpoint scatter (idx : list nat) (vals : list A) (arr : list A) : list A :=
  match idx, vals with
  | i :: idx', v :: vals' => scatter idx' vals' (<[i:=v]> arr)
  | _, _ => arr
  end.

(** [arr[idx] = vals] for an array [idx] of non-negative positions and a
    one-dimensional [vals]: [vals] must have the length of [idx] or be
    broadcast from length one, else numpy raises [ValueError]; then the
    positions are bounds-checked. *)
Definition setitem (idx : list nat) (vals : list A) (arr : list A)
  : Exn + list A :=
  let in_range := forallb (fun i => Nat.ltb i (length arr)) idx in
  if Nat.eqb (length vals) (length idx) then
    if in_range then inr (scatter idx vals arr) else inl IndexError
  else match vals with
       | [v] => if in_range
                then inr (scatter idx (replicate (length idx) v) arr)
                else inl IndexError
       | _ => inl ValueError
       end.

(** [arr[idx]] *)
Definition getitem (idx : list nat) (arr : list A) : list (option A) :=
  map (fun i => arr !! i) idx.
End Numpy.

(** ** The data model *)

Section Model.
(** The numeric type of depositions and scaling factors, with the
    product, and numpy's [np.sum]. *)
Variable num : Type.
Variable nmul : num -> num -> num.
Variable np_sum : list num -> num.

(** [spine.utils.globals.TRACK_SHP] *)
Variable TRACK_SHP : Z.

Definition Point : Type := num * num * num.

(** A particle object.  Array-valued attributes are looked up by name, as
    [getattr]/[setattr] do; a deposition attribute holds a reference to an
    array object. *)
Record Particle : Type := mkParticle {
  is_truth : bool;
  shape : Z;
  index : list nat;
  units : string;
  sources : list Z;
  point_attrs : gmap string (list Point);
  dep_attrs : gmap string nat;
  calo_ke : option num
}.

Definition set_calo_ke (v : num) (p : Particle) : Particle :=
  mkParticle (is_truth p) (shape p) (index p) (units p) (sources p)
             (point_attrs p) (dep_attrs p) (Some v).

Definition set_dep_attr (a : string) (l : nat) (p : Particle) : Particle :=
  mkParticle (is_truth p) (shape p) (index p) (units p) (sources p)
             (point_attrs p) (<[a:=l]> (dep_attrs p)) (calo_ke p).

(** One invocation of the calibration collaborator. *)
Inductive Call : Type :=
  | CallSimple (points : list Point) (deps : list num) (srcs : list Z)
               (run_id : option Z) (dedx : num)
  | CallProcess (points : list Point) (deps : list num) (srcs : list Z)
                (run_id : option Z) (track : bool).

(** The interpreter state seen by [process(data)]: the two object stores,
    the entry dictionary [data] (object collections, tensors, run
    information) and the log of collaborator invocations. *)
Record State : Type := mkState {
  arrays : list (list num);
  particles : list Particle;
  collections : gmap string (list nat);
  tensors : gmap string nat;
  run_info : option Z;
  calls : list Call
}.

Definition with_arrays (f : list (list num) -> list (list num)) (s : State) : State :=
  mkState (f (arrays s)) (particles s) (collections s) (tensors s)
          (run_info s) (calls s).

Definition with_particles (f : list Particle -> list Particle) (s : State) : State :=
  mkState (arrays s) (f (particles s)) (collections s) (tensors s)
          (run_info s) (calls s).

Definition with_tensors (f : gmap string nat -> gmap string nat) (s : State) : State :=
  mkState (arrays s) (particles s) (collections s) (f (tensors s))
          (run_info s) (calls s).

Definition with_calls (f : list Call -> list Call) (s : State) : State :=
  mkState (arrays s) (particles s) (collections s) (tensors s)
          (run_info s) (f (calls s)).

(** Dereferencing.  A dangling reference cannot arise in Python; the
    stores report it as [SystemError]. *)
Definition load_particle (r : nat) : M State Particle :=
  let! ps := gets particles in from_option SystemError (ps !! r).

Definition load_array (l : nat) : M State (list num) :=
  let! h := gets arrays in from_option SystemError (h !! l).

(** A new array object. *)
Definition new_array (v : list num) : M State nat :=
  let! h := gets arrays in
  modify (with_arrays (fun h => h ++ [v])) ;;
  ret (length h).

(** [setattr(part, a, arr)] on the object [r] *)
Definition setattr_dep (r : nat) (a : string) (l : nat) : M State unit :=
  modify (with_particles (alter (set_dep_attr a l) r)).

(** [data[k]] for an object collection *)
Definition data_collection (k : string) : M State (list nat) :=
  let! d := gets collections in from_option (KeyError k) (d !! k).

(** [data[k]] for a tensor *)
Definition data_tensor (k : string) : M State nat :=
  let! d := gets tensors in from_option (KeyError k) (d !! k).

(** ** PostBase *)

(** The resolution of [obj_type] under [run_mode] to the object keys of
    [data]; it belongs to [PostBase] and is left open. *)
Variable resolve_obj_keys : string -> string -> list string.

Record PostBase : Type := mkPostBase {
  obj_keys : list string;
  run_mode : string;
  truth_point_mode : option string;
  truth_dep_mode : option string;
  keys : gmap string bool
}.

Definition set_keys (f : gmap string bool -> gmap string bool) (b : PostBase) : PostBase :=
  mkPostBase (obj_keys b) (run_mode b) (truth_point_mode b)
             (truth_dep_mode b) (f (keys b)).

(** Modelled from the spec: [PostBase.__init__] ([spine/post/base.py] is
    not among the sources).  It holds, per instance, the object keys that
    [obj_type] resolves to, the run mode, the truth point and deposition
    modes, and the [keys] mapping, which starts from the class attribute
    [keys] of the concrete processor. *)
Definition PostBase_init (class_keys : gmap string bool)
    (obj_type rmode : string) (tpm tdm : option string) : PostBase :=
  mkPostBase (resolve_obj_keys obj_type rmode) rmode tpm tdm class_keys.

(** [getattr(part, a)] for a point attribute *)
Definition getattr_points (p : Particle) (a : string) : Exn + list Point :=
  match point_attrs p !! a with
  | Some v => inr v
  | None => inl (AttributeError a)
  end.

(** [getattr(part, a)] for a deposition attribute *)
Definition getattr_dep (p : Particle) (a : string) : Exn + nat :=
  match dep_attrs p !! a with
  | Some l => inr l
  | None => inl (AttributeError a)
  end.

(** Modelled from the spec: [PostBase.get_points] returns the coordinate
    sequence, resolving to the reco attribute [points] or to the configured
    truth attribute depending on [particle.is_truth]. *)
Definition get_points (b : PostBase) (p : Particle) : Exn + list Point :=
  if is_truth p then
    match truth_point_mode b with
    | Some a => getattr_points p a
    | None => inl TypeError
    end
  else getattr_points p "points".

(** Modelled from the spec: [PostBase.get_depositions], the symmetric
    resolution for the deposition sequence. *)
Definition get_depositions (b : PostBase) (p : Particle) : Exn + nat :=
  if is_truth p then
    match truth_dep_mode b with
    | Some a => getattr_dep p a
    | None => inl TypeError
    end
  else getattr_dep p "depositions".

(** Modelled from the spec: [PostBase.check_units] asserts that the points
    are expressed in centimeters and fails with [UnitError] otherwise.  The
    unit is the attribute [units] of the particle. *)
Definition check_units (p : Particle) : Exn + unit :=
  if String.eqb (units p) "cm" then inr tt else inl UnitError.

(** ** CalorimetricEnergyProcessor *)

(** A configuration value of type [Union[float, str]]. *)
Inductive CfgVal : Type :=
  | CNum (x : num)
  | CStr (s : string).

(** Python's builtin [eval], on the strings whose value is a number. *)
Variable py_eval : string -> Exn + num.

Record CalorimetricEnergyProcessor : Type := mkCalo {
  calo_base : PostBase;
  scaling : num;
  shower_fudge : num
}.

(** [self.x = x; if isinstance(self.x, str): self.x = eval(self.x)].  The
    log records the strings handed to [eval]. *)
Definition store_factor (x : CfgVal) : M (list string) num :=
  match x with
  | CNum v => ret v
  | CStr s => modify (fun log => log ++ [s]) ;; lift (py_eval s)
  end.

Definition calo_class_keys : gmap string bool := ∅.

Definition CalorimetricEnergyProcessor_init
    (scaling_cfg shower_fudge_cfg : CfgVal) (obj_type rmode tdm : string)
  : M (list string) CalorimetricEnergyProcessor :=
  let base := PostBase_init calo_class_keys obj_type rmode None (Some tdm) in
  let! sc := store_factor scaling_cfg in
  let! sf := store_factor shower_fudge_cfg in
  ret (mkCalo base sc sf).

Definition calo_process_part (P : CalorimetricEnergyProcessor) (r : nat)
  : M State unit :=
  let! part := load_particle r in
  let sc := if Z.eqb (shape part) TRACK_SHP
            then scaling P
            else nmul (scaling P) (shower_fudge P) in
  let! l := lift (get_depositions (calo_base P) part) in
  let! depositions := load_array l in
  modify (with_particles (alter (set_calo_ke (nmul sc (np_sum depositions))) r)).

Definition calo_process_key (P : CalorimetricEnergyProcessor) (k : string)
  : M State unit :=
  let! parts := data_collection k in
  for_each parts (calo_process_part P).

Definition calo_process (P : CalorimetricEnergyProcessor) : M State unit :=
  for_each (obj_keys (calo_base P)) (calo_process_key P).

(** ** CalibrationProcessor *)

(** The calibration collaborator [spine.utils.calib.CalibrationManager]:
    [calibrator(points, deps, sources, run_id, dedx)] and
    [calibrator.process(points, deps, sources, run_id, track=...)], each
    returning a new deposition array or raising. *)
Record Calibrator : Type := mkCalibrator {
  calibrator_call :
    list Point -> list num -> list Z -> option Z -> num -> Exn + list num;
  calibrator_process :
    list Point -> list num -> list Z -> option Z -> bool -> Exn + list num
}.

(** The forwarded configuration block [**cfg] and the collaborator's
    constructor. *)
Variable Cfg : Type.
Variable CalibrationManager : Cfg -> Exn + Calibrator.

(** Map between point attribute and underlying deposition objects *)
Definition _dep_attr_map : gmap string string :=
  <["points" := "depositions_q"]>
    (<["points_adapt" := "depositions_adapt_q"]> ∅).

Definition _dep_map : gmap string string :=
  <["points" := "depositions_label_q"]>
    (<["points_adapt" := "depositions"]> ∅).

(** [d[k]] on a dictionary with string keys; [None] is never a key. *)
Definition dict_get {V : Type} (d : gmap string V) (k : option string) : Exn + V :=
  match k with
  | Some k' => match d !! k' with
               | Some v => inr v
               | None => inl (KeyError k')
               end
  | None => inl (KeyError "None")
  end.

Record CalibrationProcessor : Type := mkCalibration {
  cp_base : PostBase;
  calibrator : Calibrator;
  dedx : num;
  do_tracking : bool;
  truth_dep_attr : string;
  truth_dep_key : string
}.

Definition calibration_class_keys : gmap string bool :=
  <["run_info" := false]> ∅.

Definition CalibrationProcessor_init (dedx_cfg : num) (do_tracking_cfg : bool)
    (obj_type rmode tpm : string) (cfg : Cfg) : Exn + CalibrationProcessor :=
  (* Initialize the parent class *)
  let base := PostBase_init calibration_class_keys obj_type rmode (Some tpm) None in
  (* Initialize the calibrator *)
  match CalibrationManager cfg with
  | inl e => inl e
  | inr cal =>
    (* Set the truth attributes to set *)
    match dict_get _dep_attr_map (truth_point_mode base) with
    | inl e => inl e
    | inr attr =>
      match dict_get _dep_map (truth_point_mode base) with
      | inl e => inl e
      | inr key =>
        (* Add necessary keys *)
        let base1 :=
          set_keys (<["depositions" := negb (String.eqb rmode "truth")]>) base in
        let base2 :=
          set_keys (<[key := negb (String.eqb rmode "reco")]>) base1 in
        inr (mkCalibration base2 cal dedx_cfg do_tracking_cfg attr key)
      end
    end
  end.

(** Invoking the collaborator: the invocation is logged, then its result
    or its exception comes back. *)
Definition collaborate (cal : Calibrator) (c : Call) : Exn + list num :=
  match c with
  | CallSimple pts deps srcs rid dx => calibrator_call cal pts deps srcs rid dx
  | CallProcess pts deps srcs rid trk => calibrator_process cal pts deps srcs rid trk
  end.

Definition invoke (cal : Calibrator) (c : Call) : M State (list num) :=
  modify (with_calls (fun cs => cs ++ [c])) ;;
  lift (collaborate cal c).

(** [data['depositions'][part.index] = depositions] *)
Definition write_back (idx : list nat) (vals : list num) : M State unit :=
  let! t := data_tensor "depositions" in
  let! arr := load_array t in
  let! arr' := lift (setitem idx vals arr) in
  modify (with_arrays (<[t:=arr']>)).

(** The body of the loop over particles. *)
Definition calibration_process_part (P : CalibrationProcessor)
    (run_id : option Z) (r : nat) : M State unit :=
  let! part := load_particle r in
  (* Make sure the particle coordinates are expressed in cm *)
  lift (check_units part) ;;
  (* Get point coordinates *)
  let! points := lift (get_points (cp_base P) part) in
  if Nat.eqb (length points) 0 then ret tt
  else
    (* Apply calibration *)
    let! l := lift (getattr_dep part "depositions") in
    let! deps := load_array l in
    let! depositions :=
      if negb (do_tracking P) || negb (Z.eqb (shape part) TRACK_SHP)
      then invoke (calibrator P)
                  (CallSimple points deps (sources part) run_id (dedx P))
      else invoke (calibrator P)
                  (CallProcess points deps (sources part) run_id true) in
    let! d := new_array depositions in
    (* Update the particle *and* the reference tensor *)
    if negb (is_truth part) then
      setattr_dep r "depositions" d ;;
      write_back (index part) depositions
    else
      setattr_dep r (truth_dep_attr P) d ;;
      modify (with_tensors (<[truth_dep_key P := d]>)).

(** The body of the loop over object keys: [for part in data[k]: ...] *)
Definition calibration_process_key (P : CalibrationProcessor)
    (run_id : option Z) (k : string) : M State unit :=
  let! parts := data_collection k in
  for_each parts (calibration_process_part P run_id).

Definition calibration_process (P : CalibrationProcessor) : M State unit :=
  (* Fetch the run info *)
  let! run_id := gets run_info in
  (* Loop over particle objects *)
  for_each (obj_keys (cp_base P)) (calibration_process_key P run_id).

(** ** States reached by one loop iteration *)

(** The state once the collaborator has been invoked with [c]. *)
Definition log_call (c : Call) (s : State) : State :=
  with_calls (fun cs => cs ++ [c]) s.

(** The state once the returned sequence [v] is a new array object bound
    to the attribute [attr] of the particle object [r]. *)
Definition store_result (attr : string) (r : nat) (v : list num) (s : State)
  : State :=
  with_particles (alter (set_dep_attr attr (length (arrays s))) r)
                 (with_arrays (fun h => h ++ [v]) s).

(** The call that the loop body issues for a particle. *)
Definition issued_call (P : CalibrationProcessor) (run_id : option Z)
    (p : Particle) (pts : list Point) (deps : list num) : Call :=
  if negb (do_tracking P) || negb (Z.eqb (shape p) TRACK_SHP)
  then CallSimple pts deps (sources p) run_id (dedx P)
  else CallProcess pts deps (sources p) run_id true.

End Model.

Arguments mkParticle {num}.
Arguments is_truth {num}.
Arguments shape {num}.
Arguments index {num}.
Arguments units {num}.
Arguments sources {num}.
Arguments point_attrs {num}.
Arguments dep_attrs {num}.
Arguments calo_ke {num}.
Arguments set_calo_ke {num}.
Arguments set_dep_attr {num}.
Arguments CallSimple {num}.
Arguments CallProcess {num}.
Arguments mkState {num}.
Arguments arrays {num}.
Arguments particles {num}.
Arguments collections {num}.
Arguments tensors {num}.
Arguments run_info {num}.
Arguments calls {num}.
Arguments with_arrays {num}.
Arguments with_particles {num}.
Arguments with_tensors {num}.
Arguments with_calls {num}.
Arguments load_particle {num}.
Arguments load_array {num}.
Arguments new_array {num}.
Arguments setattr_dep {num}.
Arguments data_collection {num}.
Arguments data_tensor {num}.
Arguments getattr_points {num}.
Arguments getattr_dep {num}.
Arguments get_points {num}.
Arguments get_depositions {num}.
Arguments check_units {num}.
Arguments CNum {num}.
Arguments CStr {num}.
Arguments mkCalo {num}.
Arguments calo_base {num}.
Arguments scaling {num}.
Arguments shower_fudge {num}.
Arguments store_factor {num}.
Arguments CalorimetricEnergyProcessor_init {num}.
Arguments calo_process_part {num}.
Arguments calo_process_key {num}.
Arguments calo_process {num}.
Arguments mkCalibrator {num}.
Arguments calibrator_call {num}.
Arguments calibrator_process {num}.
Arguments mkCalibration {num}.
Arguments cp_base {num}.
Arguments calibrator {num}.
Arguments dedx {num}.
Arguments do_tracking {num}.
Arguments truth_dep_attr {num}.
Arguments truth_dep_key {num}.
Arguments CalibrationProcessor_init {num} _ {Cfg}.
Arguments collaborate {num}.
Arguments invoke {num}.
Arguments write_back {num}.
Arguments calibration_process_part {num}.
Arguments calibration_process_key {num}.
Arguments calibration_process {num}.
Arguments log_call {num}.
Arguments store_result {num}.
Arguments issued_call {num}.

(** The strings that the spec's restricted evaluator would accept: numeric
    literals, [+ - * /], parentheses and blanks. *)
Definition arith_char (c : Ascii.ascii) : bool :=
  let n := Ascii.nat_of_ascii c in
  (Nat.leb 48 n && Nat.leb n 57)
  || Nat.eqb n 43 || Nat.eqb n 45 || Nat.eqb n 42 || Nat.eqb n 47
  || Nat.eqb n 40 || Nat.eqb n 41 || Nat.eqb n 46 || Nat.eqb n 32.

Fixpoint is_arith (s : string) : bool :=
  match s with
  | EmptyString => true
  | String c s' => arith_char c && is_arith s'
  end.

(** ** GNN layer factories *)

Section Factories.
(** Objects the factories pass around without looking inside:
    configuration dictionaries, layer dictionaries, layers. *)
Variable Obj : Type.

Inductive PyVal : Type :=
  | VInt (n : Z)
  | VObj (o : Obj)
  | VFunction (name : string)
  | VModule (name : string)
  | VNames (names : list string).

(** [mlreco.utils.factory.module_dict(layers, pattern=...)] and
    [mlreco.utils.factory.instantiate(layer_dict, cfg, **kwargs)]. *)
Variable module_dict : PyVal -> string -> PyVal.
Variable instantiate : PyVal -> PyVal -> list (string * PyVal) -> Exn + PyVal.

(** One invocation of [instantiate]. *)
Record Instantiation : Type := mkInstantiation {
  inst_dict : PyVal;
  inst_cfg : PyVal;
  inst_kwargs : list (string * PyVal)
}.

(** The names bound at module level in [factories.py]. *)
Definition module_globals : gmap string PyVal :=
  list_to_map
    [("module_dict", VFunction "module_dict");
     ("instantiate", VFunction "instantiate");
     ("layers", VModule "layers");
     ("__all__", VNames ["node_layer_construct"; "edge_layer_construct";
                         "global_layer_construct"]);
     ("node_layer_construct", VFunction "node_layer_construct");
     ("edge_layer_construct", VFunction "edge_layer_construct");
     ("global_layer_construct", VFunction "global_layer_construct")].

(** Reading a name inside a function body: the local frame first, then
    the module globals; no builtin carries any of the names used here. *)
Definition load_name (frame : gmap string PyVal) (n : string)
  : M (list Instantiation) PyVal :=
  match frame !! n with
  | Some v => ret v
  | None => from_option (NameError n) (module_globals !! n)
  end.

Definition call_instantiate (d c : PyVal) (kwargs : list (string * PyVal))
  : M (list Instantiation) PyVal :=
  modify (fun log => log ++ [mkInstantiation d c kwargs]) ;;
  lift (instantiate d c kwargs).

(** [layer_dict = module_dict(layers, pattern=p)], giving the new frame *)
Definition bind_layer_dict (frame : gmap string PyVal) (p : string)
  : M (list Instantiation) (gmap string PyVal) :=
  let! _f := load_name frame "module_dict" in
  let! ly := load_name frame "layers" in
  ret (<["layer_dict" := module_dict ly p]> frame).

Definition node_layer_construct (cfg node_in edge_in glob_in : PyVal)
  : M (list Instantiation) PyVal :=
  let frame : gmap string PyVal :=
    list_to_map [("cfg", cfg); ("node_in", node_in);
                 ("edge_in", edge_in); ("glob_in", glob_in)] in
  let! frame := bind_layer_dict frame "Node" in
  let! _f := load_name frame "instantiate" in
  let! a1 := load_name frame "layer_dict" in
  let! a2 := load_name frame "cfg" in
  let! k1 := load_name frame "node_in" in
  let! k2 := load_name frame "edge_in" in
  let! k3 := load_name frame "glob_in" in
  call_instantiate a1 a2 [("node_in", k1); ("edge_in", k2); ("glob_in", k3)].

Definition edge_layer_construct (cfg node_in edge_in glob_in : PyVal)
  : M (list Instantiation) PyVal :=
  let frame : gmap string PyVal :=
    list_to_map [("cfg", cfg); ("node_in", node_in);
                 ("edge_in", edge_in); ("glob_in", glob_in)] in
  let! frame := bind_layer_dict frame "Edge" in
  let! _f := load_name frame "instantiate" in
  let! a1 := load_name frame "layer_dict" in
  let! a2 := load_name frame "cfg" in
  let! k1 := load_name frame "node_in" in
  let! k2 := load_name frame "edge_in" in
  let! k3 := load_name frame "glob_in" in
  call_instantiate a1 a2 [("node_in", k1); ("edge_in", k2); ("glob_in", k3)].

Definition global_layer_construct (cfg node_in glob_in : PyVal)
  : M (list Instantiation) PyVal :=
  let frame : gmap string PyVal :=
    list_to_map [("cfg", cfg); ("node_in", node_in); ("glob_in", glob_in)] in
  let! frame := bind_layer_dict frame "Global" in
  let! _f := load_name frame "instantiate" in
  let! a1 := load_name frame "layer_dict" in
  let! a2 := load_name frame "cfg" in
  let! k1 := load_name frame "node_in" in
  let! k2 := load_name frame "edge_in" in
  call_instantiate a1 a2 [("node_in", k1); ("edge_in", k2)].

End Factories.

Arguments VInt {Obj}.
Arguments VObj {Obj}.
Arguments VFunction {Obj}.
Arguments VModule {Obj}.
Arguments VNames {Obj}.
Arguments mkInstantiation {Obj}.
Arguments inst_dict {Obj}.
Arguments inst_cfg {Obj}.
Arguments inst_kwargs {Obj}.
Arguments module_globals {Obj}.
Arguments load_name {Obj}.
Arguments call_instantiate {Obj}.
Arguments bind_layer_dict {Obj}.
Arguments node_layer_construct {Obj}.
Arguments edge_layer_construct {Obj}.
Arguments global_layer_construct {Obj}.

(** ** A concrete instance: integer depositions *)

Module Demo.
Definition TRACK_SHP : Z := 1%Z.
Definition SHOWR_SHP : Z := 0%Z.

Definition zsum (l : list Z) : Z := foldr Z.add 0%Z l.

(** Object keys as SPINE names them: [reco_<obj>s] and [truth_<obj>s]. *)
Definition resolve (obj_type rmode : string) : list string :=
  (if String.eqb rmode "truth" then [] else [String.append "reco_" (String.append obj_type "s")])
  ++ (if String.eqb rmode "reco" then [] else [String.append "truth_" (String.append obj_type "s")]).

(** A collaborator that doubles every deposition in simple mode and adds
    one in track-segmented mode. *)
Definition cal : Calibrator Z :=
  mkCalibrator
    (fun _ deps _ _ _ => inr (map (Z.mul 2) deps))
    (fun _ deps _ _ _ => inr (map (Z.add 1) deps)).

Definition manager (_ : unit) : Exn + Calibrator Z := inr cal.

Definition pt (x : Z) : Point Z := (x, x, x).

Definition reco_particle (shp : Z) (idx : list nat) (pts : list (Point Z)) (d : nat)
  : Particle Z :=
  mkParticle false shp idx "cm" (map (fun _ => 0%Z) idx)
             (<["points" := pts]> ∅) (<["depositions" := d]> ∅) None.

Definition truth_particle (shp : Z) (idx : list nat) (pts : list (Point Z)) (d : nat)
  : Particle Z :=
  mkParticle true shp idx "cm" (map (fun _ => 0%Z) idx)
             (<["points" := pts]> (<["points_adapt" := pts]> ∅))
             (<["depositions" := d]> ∅) None.
End Demo.

Definition includes_reco (rmode : string) : bool :=
  String.eqb rmode "reco" || String.eqb rmode "both".
Definition includes_truth (rmode : string) : bool :=
  String.eqb rmode "truth" || String.eqb rmode "both".

(** ** Specification of the calorimetric energy *)

Section CaloSpec.
Variable num : Type.
Variable nmul : num -> num -> num.
Variable np_sum : list num -> num.
Variable TRACK_SHP : Z.
Variable P : CalorimetricEnergyProcessor num.

(** The energy that the spec assigns to a particle: the sum of its
    depositions times [scaling], or times [scaling * shower_fudge] when
    the particle is not a track. *)
Definition calo_ke_spec (arrs : list (list num)) (p : Particle num) : option num :=
  match get_depositions (calo_base P) p with
  | inr l =>
    match arrs !! l with
    | Some deps =>
      Some (if Z.eqb (shape p) TRACK_SHP
            then nmul (scaling P) (np_sum deps)
            else nmul (nmul (scaling P) (shower_fudge P)) (np_sum deps))
    | None => None
    end
  | inl _ => None
  end.

(** The factor of a particle: [scaling], times [shower_fudge] unless the
    particle is a track. *)
Definition calo_factor (p : Particle num) : num :=
  if Z.eqb (shape p) TRACK_SHP then scaling P
  else nmul (scaling P) (shower_fudge P).

(** [s] differs from [s0] at most in the [calo_ke] of its particles. *)
Definition calo_frame (s0 s : State num) : Prop :=
  arrays s = arrays s0
  /\ collections s = collections s0
  /\ tensors s = tensors s0
  /\ run_info s = run_info s0
  /\ calls s = calls s0
  /\ forall r p, particles s0 !! r = Some p ->
       exists p', particles s !! r = Some p'
         /\ forall v, set_calo_ke v p' = set_calo_ke v p.

(** The particle object [r] carries in [s] the energy specified from its
    attributes in [s0]. *)
Definition calo_done (s0 s : State num) (r : nat) : Prop :=
  exists p p' v,
    particles s0 !! r = Some p
    /\ particles s !! r = Some p'
    /\ calo_ke_spec (arrays s0) p = Some v
    /\ calo_ke p' = Some v.
End CaloSpec.

Arguments calo_ke_spec {num}.
Arguments calo_factor {num}.
Arguments calo_frame {num}.
Arguments calo_done {num}.

(** ** Specification of the calibration loop *)

(** numpy's broadcast of a one-dimensional [v] to length [n]. *)
Definition broadcast_to {A : Type} (n : nat) (v : list A) : list A :=
  if Nat.eqb (length v) n then v
  else match v with
       | [x] => replicate n x
       | _ => v
       end.

(** The particles that [process] visits, in order, when every object key is
    in [data]. *)
Fixpoint flat_refs (ks : list string) (c : gmap string (list nat))
  : option (list nat) :=
  match ks with
  | [] => Some []
  | k :: ks' =>
    match c !! k, flat_refs ks' c with
    | Some rs, Some rest => Some (rs ++ rest)
    | _, _ => None
    end
  end.

Section CalibrationSpec.
Variable num : Type.
Variable TRACK_SHP : Z.
Variable P : CalibrationProcessor num.
Variable rid : option Z.

(** Whether the resolved point sequence of a particle is non-empty. *)
Definition with_points (p : Particle num) : bool :=
  match get_points (cp_base P) p with
  | inr (_ :: _) => true
  | _ => false
  end.

(** The attributes that calibration reads but never writes. *)
Definition same_static (p p' : Particle num) : Prop :=
  is_truth p' = is_truth p /\ shape p' = shape p /\ index p' = index p
  /\ units p' = units p /\ sources p' = sources p
  /\ point_attrs p' = point_attrs p.

(** No tensor of [data] is a dangling reference. *)
Definition tensors_valid (s : State num) : Prop :=
  forall k t, tensors s !! k = Some t -> t < length (arrays s).

(** What the loop keeps from [s] to a later state [s']: the object
    collections, the run information, the particle objects with their
    static attributes, and the array objects allocated so far. *)
Definition calib_frame (s s' : State num) : Prop :=
  collections s' = collections s
  /\ run_info s' = run_info s
  /\ length (arrays s) <= length (arrays s')
  /\ length (particles s') = length (particles s)
  /\ forall r p, particles s !! r = Some p ->
       exists p', particles s' !! r = Some p' /\ same_static p p'.

(** The ways in which one iteration of the loop body ends. *)
Inductive step_cases (r : nat) (s : State num) : Exn + unit -> State num -> Prop :=
  | SC_raise_early e :
      is_key_error e = false ->
      step_cases r s (inl e) s
  | SC_continue p :
      particles s !! r = Some p ->
      check_units p = inr tt ->
      get_points (cp_base P) p = inr [] ->
      step_cases r s (inr tt) s
  | SC_collab_raise p pts l deps e :
      particles s !! r = Some p ->
      check_units p = inr tt ->
      get_points (cp_base P) p = inr pts -> pts <> [] ->
      getattr_dep p "depositions" = inr l -> arrays s !! l = Some deps ->
      collaborate (calibrator P) (issued_call TRACK_SHP P rid p pts deps) = inl e ->
      step_cases r s (inl e)
        (log_call (issued_call TRACK_SHP P rid p pts deps) s)
  | SC_truth p pts l deps v :
      particles s !! r = Some p ->
      check_units p = inr tt ->
      get_points (cp_base P) p = inr pts -> pts <> [] ->
      getattr_dep p "depositions" = inr l -> arrays s !! l = Some deps ->
      collaborate (calibrator P) (issued_call TRACK_SHP P rid p pts deps) = inr v ->
      is_truth p = true ->
      step_cases r s (inr tt)
        (with_tensors (<[truth_dep_key P := length (arrays s)]>)
           (store_result (truth_dep_attr P) r v
              (log_call (issued_call TRACK_SHP P rid p pts deps) s)))
  | SC_reco_raise p pts l deps v e :
      particles s !! r = Some p ->
      check_units p = inr tt ->
      get_points (cp_base P) p = inr pts -> pts <> [] ->
      getattr_dep p "depositions" = inr l -> arrays s !! l = Some deps ->
      collaborate (calibrator P) (issued_call TRACK_SHP P rid p pts deps) = inr v ->
      is_truth p = false ->
      e = KeyError "depositions" \/ is_key_error e = false ->
      step_cases r s (inl e)
        (store_result "depositions" r v
           (log_call (issued_call TRACK_SHP P rid p pts deps) s))
  | SC_reco p pts l deps v t arr arr' :
      particles s !! r = Some p ->
      check_units p = inr tt ->
      get_points (cp_base P) p = inr pts -> pts <> [] ->
      getattr_dep p "depositions" = inr l -> arrays s !! l = Some deps ->
      collaborate (calibrator P) (issued_call TRACK_SHP P rid p pts deps) = inr v ->
      is_truth p = false ->
      tensors s !! "depositions" = Some t ->
      (arrays s ++ [v]) !! t = Some arr ->
      setitem (index p) v arr = inr arr' ->
      step_cases r s (inr tt)
        (with_arrays (<[t:=arr']>)
           (store_result "depositions" r v
              (log_call (issued_call TRACK_SHP P rid p pts deps) s))).
End CalibrationSpec.

Arguments with_points {num}.
Arguments same_static {num}.
Arguments tensors_valid {num}.
Arguments calib_frame {num}.
Arguments step_cases {num}.

Section TruthTensorSpec.
Variable num : Type.
Variable P : CalibrationProcessor num.

(** The resolved truth tensor key of [data] and the resolved truth
    deposition attribute of the particle object [r] name the array
    object [d]. *)
Definition truth_bound (r d : nat) (s : State num) : Prop :=
  d < length (arrays s)
  /\ tensors s !! truth_dep_key P = Some d
  /\ exists p', particles s !! r = Some p'
       /\ dep_attrs p' !! truth_dep_attr P = Some d.

(** The array object [d] holds [v] and is not the reco tensor. *)
Definition untouched (d : nat) (v : list num) (s : State num) : Prop :=
  arrays s !! d = Some v
  /\ forall t, tensors s !! "depositions" = Some t -> t < d.
End TruthTensorSpec.

Arguments truth_bound {num}.
Arguments untouched {num}.

Section RecoTensorSpec.
Variable num : Type.
Variable P : CalibrationProcessor num.

(** In [s], the reco tensor read at the index of the particle object [r]
    is the particle's deposition array, element by element (one element
    being broadcast, as numpy compares); that array was allocated at or
    after position [n] of the store. *)
Definition aligned (n : nat) (s : State num) (r : nat) : Prop :=
  exists t arr p' d v,
    tensors s !! "depositions" = Some t
    /\ arrays s !! t = Some arr
    /\ particles s !! r = Some p'
    /\ dep_attrs p' !! "depositions" = Some d
    /\ n <= d
    /\ arrays s !! d = Some v
    /\ getitem (index p') arr = map Some (broadcast_to (length (index p')) v).

(** A reconstructed particle with points, as found in [s] at [r]. *)
Definition reco_with_points (s : State num) (r : nat) : Prop :=
  exists p, particles s !! r = Some p
    /\ is_truth p = false /\ with_points P p = true.
End RecoTensorSpec.

Arguments aligned {num}.
Arguments reco_with_points {num}.

(** ** Configuration values handed to [eval] *)

Section FactorSpec.
Variable num : Type.
Variable py_eval : string -> Exn + num.

(** The strings of a configuration value that reach [eval]. *)
Definition evaluated (x : CfgVal num) : list string :=
  match x with
  | CStr s => [s]
  | CNum _ => []
  end.

(** The constant that a configuration value stands for. *)
Definition cfg_value (x : CfgVal num) : Exn + num :=
  match x with
  | CNum v => inr v
  | CStr s => py_eval s
  end.
End FactorSpec.

Arguments evaluated {num}.
Arguments cfg_value {num}.

(** ** Concrete entries and processors *)

Module Scenario.
(** Python's [eval] on the strings used below; [os.system] returns the
    exit status [0]. *)
Definition injected : string := "__import__('os').system('id')".

Definition py_eval (s : string) : Exn + Z :=
  if String.eqb s "2*3" then inr 6%Z
  else if String.eqb s injected then inr 0%Z
  else inl SyntaxError.

(** One reconstructed shower on the tensor positions 0 and 1 and one
    truth track; the arrays 0, 1 and 2 are the reco tensor and the
    depositions of the two particles. *)
Definition entry : State Z :=
  mkState [[10; 20; 30]; [10; 20]; [30]]%Z
    [Demo.reco_particle Demo.SHOWR_SHP [0; 1] [Demo.pt 1; Demo.pt 2] 1;
     Demo.truth_particle Demo.TRACK_SHP [2] [Demo.pt 3] 2]
    (<["reco_particles" := [0]]> (<["truth_particles" := [1]]> ∅))
    (<["depositions" := 0]> ∅) (Some 7%Z) [].

(** A reconstructed particle without points, and one in millimeters. *)
Definition no_points : Particle Z := Demo.reco_particle Demo.TRACK_SHP [] [] 1.

Definition in_mm : Particle Z :=
  mkParticle false Demo.TRACK_SHP [2] "mm" [0%Z]
             (<["points" := [Demo.pt 3]]> ∅) (<["depositions" := 2]> ∅) None.

Definition entry_skip : State Z :=
  mkState [[10; 20; 30]; []; [30]]%Z [no_points]
    (<["reco_particles" := [0]]> ∅) (<["depositions" := 0]> ∅) None [].

Definition entry_mm : State Z :=
  mkState [[10; 20; 30]; [10; 20]; [30]]%Z
    [Demo.reco_particle Demo.SHOWR_SHP [0; 1] [Demo.pt 1; Demo.pt 2] 1; in_mm]
    (<["reco_particles" := [0; 1]]> ∅) (<["depositions" := 0]> ∅) None [].

(** The processors of the configurations used below. *)
Definition calibration (do_tracking_cfg : bool) (rmode tpm : string)
  : CalibrationProcessor Z :=
  match CalibrationProcessor_init Demo.resolve Demo.manager 2%Z do_tracking_cfg
          "particle" rmode tpm tt with
  | inr P => P
  | inl _ => mkCalibration (mkPostBase [] rmode None None ∅) Demo.cal 0%Z
                           false "" ""
  end.

Definition calo : CalorimetricEnergyProcessor Z :=
  mkCalo (PostBase_init Demo.resolve calo_class_keys "particle" "both" None
            (Some "depositions"))
         2%Z 3%Z.

(** Three reconstructed particles for the energy sum: a shower and a
    track with the depositions 1, 2, 3, and a shower with none. *)
Definition entry_calo : State Z :=
  mkState [[1; 2; 3]; []]%Z
    [Demo.reco_particle Demo.SHOWR_SHP [0; 1; 2] [] 0;
     Demo.reco_particle Demo.TRACK_SHP [0; 1; 2] [] 0;
     Demo.reco_particle Demo.SHOWR_SHP [] [] 1]
    (<["reco_particles" := [0; 1; 2]]> (<["truth_particles" := []]> ∅))
    ∅ None [].
End Scenario.

Module Runs.
(** The entry of [Scenario] under the default truth point mode. *)
Definition P : CalibrationProcessor Z := Scenario.calibration false "both" "points".

Definition after_reco : State Z :=
  snd (for_each (S := State Z) [0]
         (calibration_process_part Demo.TRACK_SHP P (Some 7%Z)) Scenario.entry).

Definition after : State Z :=
  snd (calibration_process Demo.TRACK_SHP P Scenario.entry).

(** The same entry when truth points are the adapted ones. *)
Definition P_adapt : CalibrationProcessor Z :=
  Scenario.calibration false "both" "points_adapt".

Definition after_adapt : State Z :=
  snd (calibration_process Demo.TRACK_SHP P_adapt Scenario.entry).
End Runs.

Module Overlap.
(** Two reconstructed particles that both claim tensor position 1. *)
Definition entry : State Z :=
  mkState [[10; 20; 30]; [10; 20]; [25; 30]]%Z
    [Demo.reco_particle Demo.SHOWR_SHP [0; 1] [Demo.pt 1; Demo.pt 2] 1;
     Demo.reco_particle Demo.SHOWR_SHP [1; 2] [Demo.pt 2; Demo.pt 3] 2]
    (<["reco_particles" := [0; 1]]> ∅) (<["depositions" := 0]> ∅) None [].

Definition after : State Z :=
  snd (calibration_process Demo.TRACK_SHP
         (Scenario.calibration false "reco" "points") entry).
End Overlap.

(** ** The scenarios of the specification, in binary64 *)

Module FloatScenario.
(** A left-to-right sum, which is what [np.sum] computes on fewer than
    eight elements. *)
Definition fsum (l : list PrimFloat.float) : PrimFloat.float :=
  fold_left PrimFloat.add l 0%float.

Definition calo : CalorimetricEnergyProcessor PrimFloat.float :=
  mkCalo (mkPostBase ["reco_particles"] "reco" None (Some "depositions") ∅)
         2%float 1.5%float.

Definition particle (shp : Z) : Particle PrimFloat.float :=
  mkParticle false shp [0; 1; 2] "cm" [0%Z; 0%Z; 0%Z] ∅
             (<["depositions" := 0]> ∅) None.

Definition entry (shp : Z) : State PrimFloat.float :=
  mkState [[1%float; 2%float; 3%float]] [particle shp]
    (<["reco_particles" := [0]]> ∅) ∅ None [].

Definition energy (shp : Z) : list (option PrimFloat.float) :=
  map calo_ke
      (particles (snd (calo_process PrimFloat.mul fsum Demo.TRACK_SHP calo
                         (entry shp)))).
End FloatScenario.

(** ** What the calibration loop logs *)

Section CalibrationTrace.
Variable num : Type.
Variable P : CalibrationProcessor num.

(** The run identifier that an invocation carries. *)
Definition call_run_id (c : Call num) : option Z :=
  match c with
  | CallSimple _ _ _ rid _ => rid
  | CallProcess _ _ _ rid _ => rid
  end.

(** An invocation as the processor is configured: simple mode with the
    configured [dedx], or track-segmented mode with [track=True], which
    only a processor with [do_tracking] issues. *)
Definition call_configured (c : Call num) : Prop :=
  match c with
  | CallSimple _ _ _ _ dx => dx = dedx P
  | CallProcess _ _ _ _ trk => trk = true /\ do_tracking P = true
  end.

(** Whether the particle object [r] of [s] has points. *)
Definition has_points (s : State num) (r : nat) : bool :=
  match particles s !! r with
  | Some p => with_points P p
  | None => false
  end.
End CalibrationTrace.

Arguments call_run_id {num}.
Arguments call_configured {num}.
Arguments has_points {num}.

(** ** Entries at the edges *)

Module Edge.
(** An entry with reconstructed particles only, for a processor that
    also iterates the truth particles. *)
Definition calo_reco_only : State Z :=
  mkState [[1; 2; 3]]%Z
    [Demo.reco_particle Demo.SHOWR_SHP [0; 1; 2] [] 0]
    (<["reco_particles" := [0]]> ∅) ∅ None [].

(** A reconstructed shower with points in an entry without
    [data['depositions']]. *)
Definition no_tensor : State Z :=
  mkState [[10; 20]]%Z
    [Demo.reco_particle Demo.SHOWR_SHP [0; 1] [Demo.pt 1; Demo.pt 2] 0]
    (<["reco_particles" := [0]]> ∅) ∅ None [].

(** A reconstructed shower whose index leaves the three-element tensor. *)
Definition shower_beyond : Particle Z :=
  Demo.reco_particle Demo.SHOWR_SHP [0; 5] [Demo.pt 1; Demo.pt 2] 1.

Definition beyond_tensor : State Z :=
  mkState [[10; 20; 30]; [10; 20]]%Z [shower_beyond]
    (<["reco_particles" := [0]]> ∅) (<["depositions" := 0]> ∅) None [].

(** A truth particle that has points and [depositions_q] but no
    [depositions]. *)
Definition truth_without_depositions : Particle Z :=
  mkParticle true Demo.TRACK_SHP [2] "cm" [0%Z]
             (<["points" := [Demo.pt 3]]> ∅) (<["depositions_q" := 0]> ∅) None.

Definition no_depositions : State Z :=
  mkState [[30]]%Z [truth_without_depositions]
    (<["truth_particles" := [0]]> ∅) ∅ None [].

(** A collaborator that always fails, and one that returns one value too
    many. *)
Definition failing_cal : Calibrator Z :=
  mkCalibrator (fun _ _ _ _ _ => inl (CollaboratorError 1))
               (fun _ _ _ _ _ => inl (CollaboratorError 2)).

Definition growing_cal : Calibrator Z :=
  mkCalibrator (fun _ deps _ _ _ => inr (deps ++ [0%Z]))
               (fun _ deps _ _ _ => inr (deps ++ [0%Z])).

Definition with_calibrator (cal : Calibrator Z) : CalibrationProcessor Z :=
  mkCalibration (mkPostBase ["reco_particles"] "reco" (Some "points") None ∅)
                cal 2%Z false "depositions_q" "depositions_label_q".

Definition reco_only : CalibrationProcessor Z :=
  Scenario.calibration false "reco" "points".

Definition shower : Particle Z :=
  Demo.reco_particle Demo.SHOWR_SHP [0; 1] [Demo.pt 1; Demo.pt 2] 1.
End Edge.

(** ** Entries in binary64 *)

Module Binary64.
(** numpy's sum on fewer than eight elements. *)
Definition fsum (l : list PrimFloat.float) : PrimFloat.float :=
  fold_left PrimFloat.add l 0%float.

Definition processor (sc sf : PrimFloat.float)
  : CalorimetricEnergyProcessor PrimFloat.float :=
  mkCalo (mkPostBase ["reco_particles"] "reco" None (Some "depositions") ∅)
         sc sf.

Definition particle (shp : Z) (d : nat) : Particle PrimFloat.float :=
  mkParticle false shp [] "cm" [] ∅ (<["depositions" := d]> ∅) None.

(** A shower and a track with the depositions 1, 2, 3 and a shower with
    none. *)
Definition entry : State PrimFloat.float :=
  mkState [[1%float; 2%float; 3%float]; []]
    [particle Demo.SHOWR_SHP 0; particle Demo.TRACK_SHP 0;
     particle Demo.SHOWR_SHP 1]
    (<["reco_particles" := [0; 1; 2]]> ∅) ∅ None [].
End Binary64.

(** ** What the loop body does with the collaborator's answer *)

Section CalibrationDispatch.
Variable num : Type.
Variable P : CalibrationProcessor num.

(** The rest of an iteration on the particle object [r], once the
    collaborator, invoked with [c], has answered [res]: its exception is
    raised; its sequence becomes a new array, bound to the particle and
    written back as lines 146 to 152 do. *)
Definition settle (r : nat) (p : Particle num) (c : Call num)
    (res : Exn + list num) (s : State num) : (Exn + unit) * State num :=
  match res with
  | inl e => (inl e, log_call c s)
  | inr v =>
    if is_truth p then
      (inr tt, with_tensors (<[truth_dep_key P := length (arrays s)]>)
                 (store_result (truth_dep_attr P) r v (log_call c s)))
    else
      write_back (index p) v (store_result "depositions" r v (log_call c s))
  end.
End CalibrationDispatch.

Arguments settle {num}.

(** ** A truth object visited before a reconstructed one *)

Module Interleaved.
(** Modelled from the spec: [obj_type] may resolve to more than one
    collection.  Here the object types are fragments and particles, each
    resolved as in [Demo.resolve], fragments first. *)
Definition resolve (_ rmode : string) : list string :=
  Demo.resolve "fragment" rmode ++ Demo.resolve "particle" rmode.

Definition calibration (tpm : string) : CalibrationProcessor Z :=
  match CalibrationProcessor_init resolve Demo.manager 2%Z false
          "fragment+particle" "both" tpm tt with
  | inr P => P
  | inl _ => mkCalibration (mkPostBase [] "both" None None ∅) Demo.cal 0%Z
                           false "" ""
  end.

Definition truth_fragment : Particle Z :=
  Demo.truth_particle Demo.TRACK_SHP [0; 1; 2]
    [Demo.pt 1; Demo.pt 2; Demo.pt 3] 1.

Definition reco_shower : Particle Z :=
  Demo.reco_particle Demo.SHOWR_SHP [0; 1] [Demo.pt 1; Demo.pt 2] 2.

(** One truth fragment with the depositions 1, 2, 3 and one reconstructed
    shower with the depositions 10, 20 on the tensor positions 0 and 1;
    array 0 is the reco tensor. *)
Definition entry : State Z :=
  mkState [[10; 20; 30]; [1; 2; 3]; [10; 20]]%Z
    [truth_fragment; reco_shower]
    (<["reco_fragments" := []]> (<["truth_fragments" := [0]]>
       (<["reco_particles" := [1]]> (<["truth_particles" := []]> ∅))))
    (<["depositions" := 0]> ∅) None [].

(** The truth tensor is a tensor of its own under [points] and the reco
    tensor itself under [points_adapt]. *)
Definition P : CalibrationProcessor Z := calibration "points".
Definition P_adapt : CalibrationProcessor Z := calibration "points_adapt".

Definition after : State Z :=
  snd (calibration_process Demo.TRACK_SHP P entry).
Definition after_adapt : State Z :=
  snd (calibration_process Demo.TRACK_SHP P_adapt entry).
End Interleaved.

(** * Verified properties *)

Section FactoryProperties.
Variable Obj : Type.
Variable module_dict : PyVal Obj -> string -> PyVal Obj.
Variable instantiate :
  PyVal Obj -> PyVal Obj -> list (string * PyVal Obj) -> Exn + PyVal Obj.

Lemma bind_layer_dict_frame (frame : gmap string (PyVal Obj)) p log :
  frame !! "module_dict" = None ->
  frame !! "layers" = None ->
  bind_layer_dict module_dict frame p log
  = (inr (<["layer_dict" := module_dict (VModule "layers") p]> frame), log).
Proof.
  intros H1 H2. unfold bind_layer_dict, load_name, bind.
  rewrite H1, H2. reflexivity.
Qed.

(** C10: whatever its arguments, [global_layer_construct] raises
    [NameError] for the name [edge_in], which its signature does not
    bind, before [instantiate] is reached: no layer is instantiated and
    [glob_in] is never forwarded. *)
Theorem global_layer_construct_raises cfg node_in glob_in log :
  global_layer_construct module_dict instantiate cfg node_in glob_in log
  = (inl (NameError "edge_in"), log).
Proof.
  unfold global_layer_construct, bind at 1.
  rewrite bind_layer_dict_frame by reflexivity.
  reflexivity.
Qed.
End FactoryProperties.

Section CalibrationConstruction.
Variable num : Type.
Variable resolve_obj_keys : string -> string -> list string.
Variable Cfg : Type.
Variable CalibrationManager : Cfg -> Exn + Calibrator num.

Local Abbreviation init := (CalibrationProcessor_init resolve_obj_keys CalibrationManager).

Lemma dep_attr_map_lookup (k : string) :
  _dep_attr_map !! k =
    if String.eqb k "points" then Some "depositions_q"
    else if String.eqb k "points_adapt" then Some "depositions_adapt_q"
    else None.
Proof.
  unfold _dep_attr_map.
  destruct (String.eqb_spec k "points") as [->|Hn]; [reflexivity|].
  rewrite lookup_insert_ne by congruence.
  destruct (String.eqb_spec k "points_adapt") as [->|Hn']; [reflexivity|].
  rewrite lookup_insert_ne by congruence. apply lookup_empty.
Qed.

Lemma dep_map_lookup (k : string) :
  _dep_map !! k =
    if String.eqb k "points" then Some "depositions_label_q"
    else if String.eqb k "points_adapt" then Some "depositions"
    else None.
Proof.
  unfold _dep_map.
  destruct (String.eqb_spec k "points") as [->|Hn]; [reflexivity|].
  rewrite lookup_insert_ne by congruence.
  destruct (String.eqb_spec k "points_adapt") as [->|Hn']; [reflexivity|].
  rewrite lookup_insert_ne by congruence. apply lookup_empty.
Qed.

Lemma init_miss dx trk obj_type rmode tpm cfg cal :
  CalibrationManager cfg = inr cal ->
  _dep_attr_map !! tpm = None ->
  init dx trk obj_type rmode tpm cfg = inl (KeyError tpm).
Proof.
  intros Hc Hm. unfold CalibrationProcessor_init. rewrite Hc. simpl.
  rewrite Hm. reflexivity.
Qed.

Lemma init_hit dx trk obj_type rmode tpm cfg cal attr key :
  CalibrationManager cfg = inr cal ->
  _dep_attr_map !! tpm = Some attr ->
  _dep_map !! tpm = Some key ->
  init dx trk obj_type rmode tpm cfg
  = inr (mkCalibration
           (mkPostBase (resolve_obj_keys obj_type rmode) rmode (Some tpm) None
              (<[key := negb (String.eqb rmode "reco")]>
                 (<["depositions" := negb (String.eqb rmode "truth")]>
                    calibration_class_keys)))
           cal dx trk attr key).
Proof.
  intros Hc Ha Hk. unfold CalibrationProcessor_init. rewrite Hc. simpl.
  rewrite Ha, Hk. reflexivity.
Qed.

(** C8, as the code has it: under the point mode [points] the key
    [depositions] is required exactly when the run mode includes reco and
    the resolved truth key exactly when it includes truth; under
    [points_adapt] the resolved truth key is [depositions] itself, one
    entry, which is required when the run mode includes truth. *)
Theorem keys_required dx trk obj_type rmode tpm cfg cal :
  CalibrationManager cfg = inr cal ->
  rmode = "reco" \/ rmode = "truth" \/ rmode = "both" ->
  tpm = "points" \/ tpm = "points_adapt" ->
  exists P, init dx trk obj_type rmode tpm cfg = inr P
    /\ (tpm = "points" ->
          keys (cp_base P) !! "depositions" = Some (includes_reco rmode)
          /\ keys (cp_base P) !! truth_dep_key P = Some (includes_truth rmode))
    /\ (tpm = "points_adapt" ->
          truth_dep_key P = "depositions"
          /\ (includes_truth rmode = true ->
              keys (cp_base P) !! truth_dep_key P = Some true)).
Proof.
  intros Hc Hr Ht.
  destruct Ht as [-> | ->].
  - eexists. split.
    + eapply init_hit; [exact Hc | reflexivity | reflexivity].
    + simpl. split; [intros _|intros H; discriminate H].
      destruct Hr as [-> | [-> | ->]]; split; reflexivity.
  - eexists. split.
    + eapply init_hit; [exact Hc | reflexivity | reflexivity].
    + simpl. split; [intros H; discriminate H|intros _].
      split; [reflexivity|].
      destruct Hr as [-> | [-> | ->]]; intros H; try discriminate H; reflexivity.
Qed.
End CalibrationConstruction.

(** The default point mode under [run_mode = 'both']. *)
Lemma keys_required_witness :
  exists P, CalibrationProcessor_init Demo.resolve Demo.manager 2%Z false
              "particle" "both" "points" tt = inr P
    /\ ("points" = "points" ->
            keys (cp_base P) !! "depositions" = Some (includes_reco "both")
            /\ keys (cp_base P) !! truth_dep_key P = Some (includes_truth "both"))
      /\ ("points" = "points_adapt" ->
            truth_dep_key P = "depositions"
            /\ (includes_truth "both" = true ->
                keys (cp_base P) !! truth_dep_key P = Some true)).
Proof.
  apply (keys_required Z Demo.resolve unit Demo.manager 2%Z false "particle"
           "both" "points" tt Demo.cal).
  - reflexivity.
  - right. right. reflexivity.
  - left. reflexivity.
Defined.

(** Under [points_adapt] and [run_mode = 'truth'] the key [depositions] is
    required although the run mode does not include reco: it is the truth
    tensor. *)
Lemma keys_required_counterexample :
  exists P, CalibrationProcessor_init Demo.resolve Demo.manager 2%Z false
              "particle" "truth" "points_adapt" tt = inr P
    /\ keys (cp_base P) !! "depositions" <> Some (includes_reco "truth").
Proof.
  eexists. split; [reflexivity|]. vm_compute. discriminate.
Qed.

(** ** Loops *)

Section Loops.
Context {S X : Type}.
Implicit Types (body : X -> M S unit) (xs ys : list X) (s : S).

Lemma for_each_nil body s : for_each [] body s = (inr tt, s).
Proof. reflexivity. Qed.

Lemma for_each_cons body x xs s :
  for_each (x :: xs) body s
  = match body x s with
    | (inl e, s') => (inl e, s')
    | (inr _, s') => for_each xs body s'
    end.
Proof. reflexivity. Qed.

Lemma for_each_app body xs ys s :
  for_each (xs ++ ys) body s
  = match for_each xs body s with
    | (inl e, s') => (inl e, s')
    | (inr _, s') => for_each ys body s'
    end.
Proof.
  revert s. induction xs as [|x xs IH]; intros s; [reflexivity|].
  rewrite <- app_comm_cons, !for_each_cons.
  destruct (body x s) as [[e|[]] s1]; [reflexivity|apply IH].
Qed.

(** A loop that raises does so in the body, at some element. *)
Lemma for_each_raises body xs s e s' :
  for_each xs body s = (inl e, s') ->
  exists x s0, x ∈ xs /\ body x s0 = (inl e, s').
Proof.
  revert s. induction xs as [|x xs IH]; intros s; [discriminate|].
  rewrite for_each_cons.
  destruct (body x s) as [[e1|[]] s1] eqn:Hb.
  - intros [= -> ->]. exists x, s. split; [left|exact Hb].
  - intros H. destruct (IH _ H) as (y & s0 & Hy & Hr).
    exists y, s0. split; [right; exact Hy|exact Hr].
Qed.

(** An invariant of the body, kept whether it returns or raises, is an
    invariant of the loop. *)
Lemma for_each_invariant (I : S -> Prop) body xs s :
  (forall x s0, x ∈ xs -> I s0 -> I (snd (body x s0))) ->
  I s -> I (snd (for_each xs body s)).
Proof.
  revert s. induction xs as [|x xs IH]; intros s Hb Hs; [exact Hs|].
  rewrite for_each_cons.
  pose proof (Hb x s ltac:(left) Hs) as H1.
  destruct (body x s) as [[e1|[]] s1]; [exact H1|].
  apply IH; [|exact H1]. intros y s0 Hy. apply Hb. right. exact Hy.
Qed.
End Loops.

Section CalibrationStep.
Variable num : Type.
Variable TRACK_SHP : Z.
Implicit Types (P : CalibrationProcessor num) (s : State num)
         (p : Particle num) (r : nat).

Local Abbreviation step := (calibration_process_part TRACK_SHP).

Lemma step_dangling P rid r s :
  particles s !! r = None -> step P rid r s = (inl SystemError, s).
Proof.
  intros H. unfold calibration_process_part, load_particle, bind, gets. simpl.
  rewrite H. reflexivity.
Qed.

Lemma step_bad_units P rid r s p e :
  particles s !! r = Some p -> check_units p = inl e ->
  step P rid r s = (inl e, s).
Proof.
  intros H Hu. unfold calibration_process_part, load_particle, bind, gets, lift.
  simpl. rewrite H. simpl. rewrite Hu. reflexivity.
Qed.

Lemma step_bad_points P rid r s p e :
  particles s !! r = Some p -> check_units p = inr tt ->
  get_points (cp_base P) p = inl e ->
  step P rid r s = (inl e, s).
Proof.
  intros H Hu Hp. unfold calibration_process_part, load_particle, bind, gets, lift.
  simpl. rewrite H. simpl. rewrite Hu, Hp. reflexivity.
Qed.

Lemma step_no_points P rid r s p :
  particles s !! r = Some p -> check_units p = inr tt ->
  get_points (cp_base P) p = inr [] ->
  step P rid r s = (inr tt, s).
Proof.
  intros H Hu Hp. unfold calibration_process_part, load_particle, bind, gets, lift.
  simpl. rewrite H. simpl. rewrite Hu, Hp. reflexivity.
Qed.

Lemma step_no_depositions P rid r s p pts e :
  particles s !! r = Some p -> check_units p = inr tt ->
  get_points (cp_base P) p = inr pts -> pts <> [] ->
  getattr_dep p "depositions" = inl e ->
  step P rid r s = (inl e, s).
Proof.
  intros H Hu Hp Hne Hd.
  unfold calibration_process_part, load_particle, bind, gets, lift.
  simpl. rewrite H. simpl. rewrite Hu, Hp.
  destruct pts as [|pt pts]; [congruence|]. simpl. rewrite Hd. reflexivity.
Qed.

Lemma step_dangling_array P rid r s p pts l :
  particles s !! r = Some p -> check_units p = inr tt ->
  get_points (cp_base P) p = inr pts -> pts <> [] ->
  getattr_dep p "depositions" = inr l -> arrays s !! l = None ->
  step P rid r s = (inl SystemError, s).
Proof.
  intros H Hu Hp Hne Hd Ha.
  unfold calibration_process_part, load_particle, load_array, bind, gets, lift.
  simpl. rewrite H. simpl. rewrite Hu, Hp.
  destruct pts as [|pt pts]; [congruence|]. simpl. rewrite Hd, Ha. reflexivity.
Qed.

(** The loop body from the invocation of the collaborator on. *)
Lemma step_calibrate P rid r s p pts l deps :
  particles s !! r = Some p -> check_units p = inr tt ->
  get_points (cp_base P) p = inr pts -> pts <> [] ->
  getattr_dep p "depositions" = inr l -> arrays s !! l = Some deps ->
  let c := issued_call TRACK_SHP P rid p pts deps in
  step P rid r s
  = match collaborate (calibrator P) c with
    | inl e => (inl e, log_call c s)
    | inr v =>
      if is_truth p then
        (inr tt, with_tensors (<[truth_dep_key P := length (arrays s)]>)
                   (store_result (truth_dep_attr P) r v (log_call c s)))
      else
        write_back (index p) v (store_result "depositions" r v (log_call c s))
    end.
Proof.
  intros H Hu Hp Hne Hd Ha c.
  unfold calibration_process_part, load_particle, load_array, bind, gets, lift.
  simpl. rewrite H. simpl. rewrite Hu, Hp.
  destruct pts as [|pt pts]; [congruence|]. simpl. rewrite Hd, Ha. simpl.
  subst c. unfold issued_call.
  destruct (negb (do_tracking P) || negb (Z.eqb (shape p) TRACK_SHP)).
  - unfold invoke, bind, modify, lift. cbn -[collaborate].
    destruct (collaborate (calibrator P) _) as [e|v]; [reflexivity|].
    destruct (is_truth p); reflexivity.
  - unfold invoke, bind, modify, lift. cbn -[collaborate].
    destruct (collaborate (calibrator P) _) as [e|v]; [reflexivity|].
    destruct (is_truth p); reflexivity.
Qed.
End CalibrationStep.

Section CalibrationClaims.
Variable num : Type.
Variable TRACK_SHP : Z.
Implicit Types (P : CalibrationProcessor num) (s : State num)
         (p : Particle num) (r : nat).

Local Abbreviation step := (calibration_process_part TRACK_SHP).

Lemma write_back_calls idx (v : list num) s :
  calls (snd (write_back idx v s)) = calls s.
Proof.
  unfold write_back, data_tensor, load_array, bind, gets, lift, modify. simpl.
  destruct (tensors s !! "depositions") as [t|]; [|reflexivity]. simpl.
  destruct (arrays s !! t) as [arr|]; [|reflexivity]. simpl.
  destruct (setitem idx v arr); reflexivity.
Qed.

Lemma step_calls P rid r s p pts l deps :
  particles s !! r = Some p -> check_units p = inr tt ->
  get_points (cp_base P) p = inr pts -> pts <> [] ->
  getattr_dep p "depositions" = inr l -> arrays s !! l = Some deps ->
  calls (snd (step P rid r s))
  = calls s ++ [issued_call TRACK_SHP P rid p pts deps].
Proof.
  intros H Hu Hp Hne Hd Ha.
  rewrite (step_calibrate num TRACK_SHP P rid r s p pts l deps) by assumption.
  destruct (collaborate _ _) as [e|v]; [reflexivity|].
  destruct (is_truth p); [reflexivity|].
  rewrite write_back_calls. reflexivity.
Qed.

(** C3: a particle with points is calibrated in simple mode, with the
    static [dedx], unless [do_tracking] is set and the particle is a
    track; then it is calibrated in track-segmented mode with
    [track=True].  Either way the collaborator receives the points, the
    particle's [depositions] and [sources], and the run identifier; the
    call is logged, and the iteration goes on with what the collaborator
    of that mode answers: [calibrator(...)] in simple mode,
    [calibrator.process(...)] in track-segmented mode. *)
Theorem calibration_mode P rid r s p pts l deps :
  particles s !! r = Some p -> check_units p = inr tt ->
  get_points (cp_base P) p = inr pts -> pts <> [] ->
  getattr_dep p "depositions" = inr l -> arrays s !! l = Some deps ->
  (do_tracking P = false \/ shape p <> TRACK_SHP ->
     calls (snd (step P rid r s))
     = calls s ++ [CallSimple pts deps (sources p) rid (dedx P)]
     /\ step P rid r s
        = settle P r p (CallSimple pts deps (sources p) rid (dedx P))
            (calibrator_call (calibrator P) pts deps (sources p) rid (dedx P))
            s)
  /\ (do_tracking P = true /\ shape p = TRACK_SHP ->
        calls (snd (step P rid r s))
        = calls s ++ [CallProcess pts deps (sources p) rid true]
        /\ step P rid r s
           = settle P r p (CallProcess pts deps (sources p) rid true)
               (calibrator_process (calibrator P) pts deps (sources p) rid true)
               s).
Proof.
  intros H Hu Hp Hne Hd Ha.
  rewrite (step_calls P rid r s p pts l deps) by assumption.
  rewrite (step_calibrate num TRACK_SHP P rid r s p pts l deps) by assumption.
  unfold issued_call. split.
  - intros Hmode.
    assert (E : negb (do_tracking P) || negb (Z.eqb (shape p) TRACK_SHP) = true).
    { destruct Hmode as [Ht | Hs].
      - rewrite Ht. reflexivity.
      - destruct (Z.eqb_spec (shape p) TRACK_SHP) as [E|_]; [contradiction|].
        apply orb_true_r. }
    rewrite E. split; reflexivity.
  - intros [Ht Hs]. rewrite Ht, Hs, Z.eqb_refl. split; reflexivity.
Qed.

(** C4: a particle whose resolved point sequence is empty is skipped:
    the whole state (its attributes, every array and tensor, the log of
    collaborator invocations) is as before, and when its units are
    centimeters the loop simply continues. *)
Theorem empty_points_skipped P rid r s p :
  particles s !! r = Some p ->
  get_points (cp_base P) p = inr [] ->
  snd (step P rid r s) = s
  /\ calls (snd (step P rid r s)) = calls s
  /\ (check_units p = inr tt -> step P rid r s = (inr tt, s)).
Proof.
  intros H Hp.
  destruct (check_units p) as [e|[]] eqn:Hu.
  - rewrite (step_bad_units num TRACK_SHP P rid r s p e H Hu).
    repeat split. intros [=].
  - rewrite (step_no_points num TRACK_SHP P rid r s p H Hu Hp).
    repeat split.
Qed.

(** C9: when [check_units] raises [UnitError] for a particle, [process]
    raises it, and the state it leaves is the state reached by the
    iterations before that particle: their writes stay, the failing
    particle and everything after it is untouched. *)
Theorem unit_error_aborts P s ks1 k ks2 rs1 r rs2 s1 s2 p :
  obj_keys (cp_base P) = ks1 ++ k :: ks2 ->
  for_each ks1 (calibration_process_key TRACK_SHP P (run_info s)) s
    = (inr tt, s1) ->
  collections s1 !! k = Some (rs1 ++ r :: rs2) ->
  for_each rs1 (step P (run_info s)) s1 = (inr tt, s2) ->
  particles s2 !! r = Some p ->
  check_units p = inl UnitError ->
  calibration_process TRACK_SHP P s = (inl UnitError, s2).
Proof.
  intros Hk H1 Hc H2 Hp Hu.
  unfold calibration_process, bind, gets. simpl.
  rewrite Hk, for_each_app, H1, for_each_cons.
  unfold calibration_process_key at 1, data_collection, bind, gets. simpl.
  rewrite Hc. simpl.
  rewrite for_each_app, H2, for_each_cons.
  rewrite (step_bad_units num TRACK_SHP P _ r s2 p UnitError Hp Hu).
  reflexivity.
Qed.
End CalibrationClaims.

Section CaloEnergy.
Variable num : Type.
Variable nmul : num -> num -> num.
Variable np_sum : list num -> num.
Variable TRACK_SHP : Z.
Variable P : CalorimetricEnergyProcessor num.
Implicit Types (s : State num) (p : Particle num) (r : nat) (v : num).

Local Abbreviation part := (calo_process_part nmul np_sum TRACK_SHP P).
Local Abbreviation spec := (calo_ke_spec nmul np_sum TRACK_SHP P).
Local Abbreviation done := (calo_done nmul np_sum TRACK_SHP P).

Lemma calo_frame_refl s : calo_frame s s.
Proof.
  repeat split. intros r p Hp. exists p. split; [exact Hp|reflexivity].
Qed.

Lemma spec_same_fields arrs p p' :
  (forall v, set_calo_ke v p' = set_calo_ke v p) ->
  spec arrs p' = spec arrs p.
Proof.
  intros H. unfold calo_ke_spec, get_depositions, getattr_dep.
  destruct p, p'. specialize (H (np_sum [])). simpl in *.
  injection H as -> -> -> -> -> -> ->. reflexivity.
Qed.

(** One iteration on a particle whose depositions resolve. *)
Lemma part_run s0 s r p v :
  calo_frame s0 s ->
  particles s0 !! r = Some p ->
  spec (arrays s0) p = Some v ->
  part r s = (inr tt, with_particles (alter (set_calo_ke v) r) s).
Proof.
  intros (Ha & _ & _ & _ & _ & Hf) Hp Hv.
  destruct (Hf r p Hp) as (p' & Hp' & Hsame).
  pose proof (spec_same_fields (arrays s0) p p' Hsame) as Hs.
  rewrite Hv in Hs.
  unfold calo_process_part, load_particle, load_array, bind, gets, lift, modify.
  simpl. rewrite Hp'. simpl.
  unfold calo_ke_spec in Hs.
  destruct (get_depositions (calo_base P) p') as [e|l]; [discriminate|].
  rewrite Ha. destruct (arrays s0 !! l) as [deps|]; [|discriminate]. simpl.
  injection Hs as <-.
  destruct (Z.eqb (shape p') TRACK_SHP); reflexivity.
Qed.

Lemma frame_after_write s0 s r v :
  calo_frame s0 s ->
  calo_frame s0 (with_particles (alter (set_calo_ke v) r) s).
Proof.
  intros (Ha & Hc & Ht & Hr & Hl & Hf).
  repeat split; try assumption.
  intros r' p Hp. destruct (Hf r' p Hp) as (p' & Hp' & Hsame). simpl.
  destruct (decide (r = r')) as [->|Hne].
  - exists (set_calo_ke v p'). split.
    + rewrite list_lookup_alter_eq, Hp'. reflexivity.
    + intros w. rewrite <- (Hsame w). destruct p'; reflexivity.
  - exists p'. split; [|exact Hsame].
    rewrite list_lookup_alter_ne by exact Hne. exact Hp'.
Qed.

Lemma done_after_write s0 s r p v :
  calo_frame s0 s ->
  particles s0 !! r = Some p ->
  spec (arrays s0) p = Some v ->
  done s0 (with_particles (alter (set_calo_ke v) r) s) r
  /\ forall r', done s0 s r' ->
                done s0 (with_particles (alter (set_calo_ke v) r) s) r'.
Proof.
  intros Hfr Hp Hv.
  destruct Hfr as (_ & _ & _ & _ & _ & Hf).
  destruct (Hf r p Hp) as (p' & Hp' & _).
  assert (Hr : done s0 (with_particles (alter (set_calo_ke v) r) s) r).
  { exists p, (set_calo_ke v p'), v. repeat split; try assumption.
    simpl. rewrite list_lookup_alter_eq, Hp'. reflexivity. }
  split; [exact Hr|].
  intros r' Hd. destruct (decide (r = r')) as [<-|Hne]; [exact Hr|].
  destruct Hd as (q & q' & w & Hq & Hq' & Hw & Hk).
  exists q, q', w. repeat split; try assumption.
  simpl. rewrite list_lookup_alter_ne by exact Hne. exact Hq'.
Qed.

Lemma parts_run s0 rs : forall s,
  calo_frame s0 s ->
  (forall r, r ∈ rs -> exists p v,
      particles s0 !! r = Some p /\ spec (arrays s0) p = Some v) ->
  exists s', for_each rs part s = (inr tt, s')
    /\ calo_frame s0 s'
    /\ (forall r, r ∈ rs -> done s0 s' r)
    /\ (forall r, done s0 s r -> done s0 s' r).
Proof.
  induction rs as [|r rs IH]; intros s Hfr Hready.
  - exists s. split; [reflexivity|]. split; [exact Hfr|]. split; [|auto].
    intros r Hr. inversion Hr.
  - destruct (Hready r ltac:(left)) as (p & v & Hp & Hv).
    rewrite for_each_cons, (part_run s0 s r p v Hfr Hp Hv).
    destruct (done_after_write s0 s r p v Hfr Hp Hv) as [Hd Hkeep].
    destruct (IH _ (frame_after_write s0 s r v Hfr)) as (s' & Hrun & Hfr' & Hall & Hk).
    { intros r' Hr'. apply Hready. right. exact Hr'. }
    exists s'. split; [exact Hrun|]. split; [exact Hfr'|]. split.
    + intros r' Hr'. apply elem_of_cons in Hr' as [->|Hr'].
      * apply Hk, Hd.
      * apply Hall, Hr'.
    + intros r' Hr'. apply Hk, Hkeep, Hr'.
Qed.

Lemma keys_run s0 ks : forall s,
  calo_frame s0 s ->
  (forall k, k ∈ ks -> exists rs, collections s0 !! k = Some rs
      /\ forall r, r ∈ rs -> exists p v,
           particles s0 !! r = Some p /\ spec (arrays s0) p = Some v) ->
  exists s', for_each ks (calo_process_key nmul np_sum TRACK_SHP P) s = (inr tt, s')
    /\ calo_frame s0 s'
    /\ (forall k rs r, k ∈ ks -> collections s0 !! k = Some rs -> r ∈ rs ->
          done s0 s' r)
    /\ (forall r, done s0 s r -> done s0 s' r).
Proof.
  induction ks as [|k ks IH]; intros s Hfr Hready.
  - exists s. split; [reflexivity|]. split; [exact Hfr|]. split; [|auto].
    intros k rs r Hk. inversion Hk.
  - destruct (Hready k ltac:(left)) as (rs & Hc & Hrs).
    destruct (parts_run s0 rs s Hfr Hrs) as (s1 & Hrun1 & Hfr1 & Hall1 & Hk1).
    destruct (IH s1 Hfr1) as (s' & Hrun & Hfr' & Hall & Hk').
    { intros k' Hk'. apply Hready. right. exact Hk'. }
    exists s'. split.
    { rewrite for_each_cons.
      unfold calo_process_key at 1, data_collection, bind, gets. simpl.
      destruct Hfr as (_ & Hcs & _). rewrite Hcs, Hc. simpl.
      rewrite Hrun1. exact Hrun. }
    split; [exact Hfr'|]. split.
    + intros k' rs' r Hin Hc' Hr. apply elem_of_cons in Hin as [->|Hin].
      * rewrite Hc in Hc'. injection Hc' as <-. apply Hk', Hall1, Hr.
      * eapply Hall; eassumption.
    + intros r Hr. apply Hk', Hk1, Hr.
Qed.

(** In whatever arithmetic [nmul] and [np_sum] stand for, [process]
    returns and every particle of the configured collections then carries
    the product of its factor and the sum of its depositions. *)
Lemma calo_ke_structure s :
  (forall k, k ∈ obj_keys (calo_base P) ->
     exists rs, collections s !! k = Some rs
       /\ forall r, r ∈ rs -> exists p l deps,
            particles s !! r = Some p
            /\ get_depositions (calo_base P) p = inr l
            /\ arrays s !! l = Some deps) ->
  exists s', calo_process nmul np_sum TRACK_SHP P s = (inr tt, s')
    /\ forall k rs r p l deps,
         k ∈ obj_keys (calo_base P) -> collections s !! k = Some rs -> r ∈ rs ->
         particles s !! r = Some p ->
         get_depositions (calo_base P) p = inr l ->
         arrays s !! l = Some deps ->
         exists p', particles s' !! r = Some p'
           /\ calo_ke p'
              = Some (nmul (calo_factor nmul TRACK_SHP P p) (np_sum deps)).
Proof.
  intros Hready.
  destruct (keys_run s (obj_keys (calo_base P)) s (calo_frame_refl s))
    as (s' & Hrun & _ & Hall & _).
  { intros k Hk. destruct (Hready k Hk) as (rs & Hc & Hrs).
    exists rs. split; [exact Hc|]. intros r Hr.
    destruct (Hrs r Hr) as (p & l & deps & Hp & Hl & Hd).
    exists p. eexists. split; [exact Hp|].
    unfold calo_ke_spec. rewrite Hl, Hd. reflexivity. }
  exists s'. split; [exact Hrun|].
  intros k rs r p l deps Hk Hc Hr Hp Hl Hd.
  destruct (Hall k rs r Hk Hc Hr) as (q & p' & v & Hq & Hp' & Hv & Hke).
  rewrite Hp in Hq. injection Hq as <-.
  unfold calo_ke_spec in Hv. rewrite Hl, Hd in Hv. injection Hv as <-.
  exists p'. split; [exact Hp'|]. rewrite Hke. unfold calo_factor.
  destruct (Z.eqb (shape p) TRACK_SHP); reflexivity.
Qed.
End CaloEnergy.

Section CalibrationLoop.
Variable num : Type.
Variable TRACK_SHP : Z.
Variable P : CalibrationProcessor num.
Variable rid : option Z.
Implicit Types (s : State num) (p : Particle num) (r : nat).

Local Abbreviation step := (calibration_process_part TRACK_SHP P rid).
Local Abbreviation cases := (step_cases TRACK_SHP P rid).

Lemma setitem_inl {A : Type} idx (v arr : list A) e :
  setitem idx v arr = inl e -> is_key_error e = false.
Proof.
  unfold setitem.
  destruct (Nat.eqb (length v) (length idx)).
  - destruct (forallb _ idx); [discriminate|intros [= <-]; reflexivity].
  - destruct v as [|x [|y v]]; try (intros [= <-]; reflexivity).
    destruct (forallb _ idx); [discriminate|intros [= <-]; reflexivity].
Qed.

Lemma write_back_cases idx (v : list num) s :
  (exists e, write_back idx v s = (inl e, s)
     /\ (e = KeyError "depositions" \/ is_key_error e = false))
  \/ (exists t arr arr', tensors s !! "depositions" = Some t
        /\ arrays s !! t = Some arr
        /\ setitem idx v arr = inr arr'
        /\ write_back idx v s = (inr tt, with_arrays (<[t:=arr']>) s)).
Proof.
  unfold write_back, data_tensor, load_array, bind, gets, lift, modify. simpl.
  destruct (tensors s !! "depositions") as [t|] eqn:Ht;
    [|left; eexists; split; [reflexivity|left; reflexivity]].
  simpl. destruct (arrays s !! t) as [arr|] eqn:Ha;
    [|left; eexists; split; [reflexivity|right; reflexivity]].
  simpl. destruct (setitem idx v arr) as [e|arr'] eqn:Hs.
  - left; eexists; split; [reflexivity|right]. eapply setitem_inl. exact Hs.
  - right. exists t, arr, arr'. repeat split; first [assumption | reflexivity].
Qed.

(** Every iteration ends in one of the listed ways. *)
Lemma check_units_inl p e : check_units p = inl e -> is_key_error e = false.
Proof.
  unfold check_units. destruct (String.eqb _ _); [discriminate|].
  intros [= <-]. reflexivity.
Qed.

Lemma getattr_points_inl p a e :
  getattr_points p a = inl e -> is_key_error e = false.
Proof.
  unfold getattr_points. destruct (point_attrs p !! a); [discriminate|].
  intros [= <-]. reflexivity.
Qed.

Lemma get_points_inl p e :
  get_points (cp_base P) p = inl e -> is_key_error e = false.
Proof.
  unfold get_points. destruct (is_truth p).
  - destruct (truth_point_mode (cp_base P)).
    + apply getattr_points_inl.
    + intros [= <-]. reflexivity.
  - apply getattr_points_inl.
Qed.

Lemma getattr_dep_inl p a e :
  getattr_dep p a = inl e -> is_key_error e = false.
Proof.
  unfold getattr_dep. destruct (dep_attrs p !! a); [discriminate|].
  intros [= <-]. reflexivity.
Qed.

Lemma step_cases_intro r s : cases r s (fst (step r s)) (snd (step r s)).
Proof.
  destruct (particles s !! r) as [p|] eqn:Hp.
  2:{ rewrite (step_dangling num TRACK_SHP P rid r s Hp).
      constructor. reflexivity. }
  destruct (check_units p) as [e|[]] eqn:Hu.
  { rewrite (step_bad_units num TRACK_SHP P rid r s p e Hp Hu).
    constructor. eapply check_units_inl. exact Hu. }
  destruct (get_points (cp_base P) p) as [e|pts] eqn:Hpts.
  { rewrite (step_bad_points num TRACK_SHP P rid r s p e Hp Hu Hpts).
    constructor. eapply get_points_inl. exact Hpts. }
  destruct pts as [|pt pts].
  { rewrite (step_no_points num TRACK_SHP P rid r s p Hp Hu Hpts).
    eapply SC_continue; eassumption. }
  assert (Hne : pt :: pts <> []) by discriminate.
  destruct (getattr_dep p "depositions") as [e|l] eqn:Hl.
  { rewrite (step_no_depositions num TRACK_SHP P rid r s p _ e Hp Hu Hpts Hne Hl).
    constructor. eapply getattr_dep_inl. exact Hl. }
  destruct (arrays s !! l) as [deps|] eqn:Hd.
  2:{ rewrite (step_dangling_array num TRACK_SHP P rid r s p _ l Hp Hu Hpts Hne Hl Hd).
      constructor. reflexivity. }
  rewrite (step_calibrate num TRACK_SHP P rid r s p _ l deps Hp Hu Hpts Hne Hl Hd).
  destruct (collaborate (calibrator P) _) as [e|v] eqn:Hc.
  { eapply SC_collab_raise; eassumption. }
  destruct (is_truth p) eqn:Ht.
  { eapply SC_truth; eassumption. }
  destruct (write_back_cases (index p) v
              (store_result "depositions" r v
                 (log_call (issued_call TRACK_SHP P rid p (pt :: pts) deps) s)))
    as [(e & He & Hk) | (t & arr & arr' & Ht' & Harr & Hset & Hw)].
  - rewrite He. eapply SC_reco_raise; eassumption.
  - rewrite Hw. eapply SC_reco; eassumption.
Qed.

Lemma step_cases_run r s res s' : step r s = (res, s') -> cases r s res s'.
Proof.
  intros H. pose proof (step_cases_intro r s) as Hc. rewrite H in Hc. exact Hc.
Qed.
End CalibrationLoop.

Section CalibrationFrame.
Variable num : Type.
Variable TRACK_SHP : Z.
Variable P : CalibrationProcessor num.
Variable rid : option Z.
Implicit Types (s : State num) (p : Particle num) (r : nat).

Local Abbreviation step := (calibration_process_part TRACK_SHP P rid).
Local Abbreviation cases := (step_cases TRACK_SHP P rid).

Lemma same_static_refl p : same_static p p.
Proof. repeat split. Qed.

Lemma same_static_trans p1 p2 p3 :
  same_static p1 p2 -> same_static p2 p3 -> same_static p1 p3.
Proof.
  intros (H1 & H2 & H3 & H4 & H5 & H6) (G1 & G2 & G3 & G4 & G5 & G6).
  repeat split; congruence.
Qed.

Lemma same_static_set_dep a l p : same_static p (set_dep_attr a l p).
Proof. repeat split. Qed.

Lemma same_static_points p p' :
  same_static p p' -> get_points (cp_base P) p' = get_points (cp_base P) p.
Proof.
  intros (H1 & _ & _ & _ & _ & H6).
  unfold get_points, getattr_points. rewrite H1, H6. reflexivity.
Qed.

Lemma same_static_with_points p p' :
  same_static p p' -> with_points P p' = with_points P p.
Proof.
  intros H. unfold with_points. rewrite (same_static_points p p' H). reflexivity.
Qed.

Lemma calib_frame_refl s : calib_frame s s.
Proof.
  repeat split; try reflexivity.
  intros r p Hp. exists p. split; [exact Hp|apply same_static_refl].
Qed.

Lemma calib_frame_trans s1 s2 s3 :
  calib_frame s1 s2 -> calib_frame s2 s3 -> calib_frame s1 s3.
Proof.
  intros (A1 & A2 & A3 & A4 & A5) (B1 & B2 & B3 & B4 & B5).
  split; [congruence|]. split; [congruence|]. split; [lia|].
  split; [congruence|].
  intros r p Hp. destruct (A5 r p Hp) as (p2 & Hp2 & Hs2).
  destruct (B5 r p2 Hp2) as (p3 & Hp3 & Hs3).
  exists p3. split; [exact Hp3|]. eapply same_static_trans; eassumption.
Qed.

(** A particle object found in the later state was there before. *)
Lemma calib_frame_back s s' r p' :
  calib_frame s s' -> particles s' !! r = Some p' ->
  exists p, particles s !! r = Some p /\ same_static p p'.
Proof.
  intros (_ & _ & _ & Hl & Hf) Hp'.
  assert (Hlt : r < length (particles s)).
  { rewrite <- Hl. eapply lookup_lt_Some. exact Hp'. }
  destruct (lookup_lt_is_Some_2 _ _ Hlt) as [p Hp].
  destruct (Hf r p Hp) as (q & Hq & Hs).
  rewrite Hp' in Hq. injection Hq as <-. exists p. split; assumption.
Qed.

Lemma frame_log_call c s : calib_frame s (log_call c s).
Proof.
  split; [reflexivity|]. split; [reflexivity|]. split; [simpl; lia|].
  split; [reflexivity|].
  intros r p Hp. exists p. split; [exact Hp|apply same_static_refl].
Qed.

Lemma frame_store_result a r (v : list num) s : calib_frame s (store_result a r v s).
Proof.
  split; [reflexivity|]. split; [reflexivity|].
  split; [simpl; rewrite length_app; lia|].
  split; [simpl; apply length_alter|].
  intros r' p Hp. simpl.
  destruct (decide (r = r')) as [->|Hne].
  - exists (set_dep_attr a (length (arrays s)) p). split.
    + rewrite list_lookup_alter_eq, Hp. reflexivity.
    + apply same_static_set_dep.
  - exists p. split; [|apply same_static_refl].
    rewrite list_lookup_alter_ne by exact Hne. exact Hp.
Qed.

Lemma frame_with_tensors f s : calib_frame s (with_tensors f s).
Proof.
  split; [reflexivity|]. split; [reflexivity|]. split; [simpl; lia|].
  split; [reflexivity|].
  intros r p Hp. exists p. split; [exact Hp|apply same_static_refl].
Qed.

Lemma frame_insert_array t (a : list num) s :
  calib_frame s (with_arrays (<[t:=a]>) s).
Proof.
  split; [reflexivity|]. split; [reflexivity|].
  split; [simpl; rewrite length_insert; lia|].
  split; [reflexivity|].
  intros r p Hp. exists p. split; [exact Hp|apply same_static_refl].
Qed.

Lemma cases_frame r s res s' : cases r s res s' -> calib_frame s s'.
Proof.
  intros H. destruct H.
  - apply calib_frame_refl.
  - apply calib_frame_refl.
  - apply frame_log_call.
  - eapply calib_frame_trans; [|apply frame_with_tensors].
    eapply calib_frame_trans; [apply frame_log_call|apply frame_store_result].
  - eapply calib_frame_trans; [apply frame_log_call|apply frame_store_result].
  - eapply calib_frame_trans; [|apply frame_insert_array].
    eapply calib_frame_trans; [apply frame_log_call|apply frame_store_result].
Qed.

Lemma step_frame r s : calib_frame s (snd (step r s)).
Proof. eapply cases_frame. apply step_cases_intro. Qed.

Lemma loop_frame rs s : calib_frame s (snd (for_each rs step s)).
Proof.
  revert s. induction rs as [|r rs IH]; intros s; [apply calib_frame_refl|].
  rewrite for_each_cons. pose proof (step_frame r s) as H1.
  destruct (step r s) as [[e|[]] s1]; [exact H1|].
  eapply calib_frame_trans; [exact H1|apply IH].
Qed.

Lemma cases_tensors_valid r s res s' :
  cases r s res s' -> tensors_valid s -> tensors_valid s'.
Proof.
  intros H Hv. destruct H; try exact Hv.
  - intros k t. simpl. rewrite length_app. simpl.
    destruct (decide (truth_dep_key P = k)) as [->|Hne].
    + rewrite lookup_insert_eq. intros [= <-]. lia.
    + rewrite lookup_insert_ne by exact Hne. intros Hk.
      specialize (Hv k t Hk). lia.
  - intros k t. simpl. rewrite length_app. intros Hk.
    specialize (Hv k t Hk). lia.
  - intros k t'. simpl. rewrite length_insert, length_app. intros Hk.
    specialize (Hv k t' Hk). lia.
Qed.

Lemma loop_tensors_valid rs s :
  tensors_valid s -> tensors_valid (snd (for_each rs step s)).
Proof.
  apply for_each_invariant. intros r s0 _.
  eapply cases_tensors_valid. apply step_cases_intro.
Qed.
End CalibrationFrame.

Section Flattening.
Variable num : Type.
Variable TRACK_SHP : Z.
Variable P : CalibrationProcessor num.

(** With every object key in [data], the nested loops visit the
    concatenated collections. *)
Lemma keys_loop_flat rid ks : forall (s : State num) refs,
  flat_refs ks (collections s) = Some refs ->
  for_each ks (calibration_process_key TRACK_SHP P rid) s
  = for_each refs (calibration_process_part TRACK_SHP P rid) s.
Proof.
  induction ks as [|k ks IH]; intros s refs Hf; simpl in Hf.
  - injection Hf as <-. reflexivity.
  - destruct (collections s !! k) as [rs|] eqn:Hk; [|discriminate].
    destruct (flat_refs ks (collections s)) as [rest|] eqn:Hr; [|discriminate].
    injection Hf as <-.
    rewrite for_each_cons, for_each_app.
    unfold calibration_process_key at 1, data_collection, bind, gets. simpl.
    rewrite Hk. simpl.
    pose proof (loop_frame num TRACK_SHP P rid rs s) as (Hc & _).
    destruct (for_each rs _ s) as [[e|[]] s1]; [reflexivity|].
    apply IH. simpl in Hc. rewrite Hc. exact Hr.
Qed.

Lemma process_flat (s : State num) refs :
  flat_refs (obj_keys (cp_base P)) (collections s) = Some refs ->
  calibration_process TRACK_SHP P s
  = for_each refs (calibration_process_part TRACK_SHP P (run_info s)) s.
Proof.
  intros Hf. unfold calibration_process, bind, gets. simpl.
  apply keys_loop_flat. exact Hf.
Qed.
End Flattening.

Section TruthTensor.
Variable num : Type.
Variable TRACK_SHP : Z.
Variable P : CalibrationProcessor num.
Variable rid : option Z.
Implicit Types (s : State num) (p : Particle num) (r d : nat).

Local Abbreviation step := (calibration_process_part TRACK_SHP P rid).
Local Abbreviation cases := (step_cases TRACK_SHP P rid).

(** A later iteration on anything but a truth particle with points keeps
    the binding made for the truth particle [r]. *)
Lemma later_step_keeps r d r' s s' p q :
  particles s !! r = Some p -> is_truth p = true ->
  particles s !! r' = Some q -> is_truth q && with_points P q = false ->
  cases r' s (inr tt) s' ->
  truth_bound P r d s -> truth_bound P r d s'.
Proof.
  intros Hp Ht Hq Hnot Hc (Hd & Hk & p' & Hp' & Ha).
  rewrite Hp in Hp'. injection Hp' as <-.
  inversion Hc; subst.
  - repeat split; try assumption. exists p. split; assumption.
  - exfalso. match goal with H : particles s !! r' = Some ?x |- _ =>
      rewrite Hq in H; injection H as <- end.
    unfold with_points in Hnot.
    match goal with H : get_points _ q = inr ?l, H' : ?l <> [] |- _ =>
      rewrite H in Hnot; destruct l; [congruence|] end.
    match goal with H : is_truth q = true |- _ => rewrite H in Hnot end.
    discriminate.
  - match goal with H : particles s !! r' = Some ?x |- _ =>
      rewrite Hq in H; injection H as <- end.
    assert (Hne : r' <> r).
    { intros ->. rewrite Hp in Hq. injection Hq as ->. congruence. }
    split; [simpl; rewrite length_insert, length_app; lia|].
    split; [exact Hk|].
    exists p. split; [|exact Ha]. simpl.
    rewrite list_lookup_alter_ne by exact Hne. exact Hp.
Qed.

Lemma later_step_untouched r' d v s s' q :
  d < length (arrays s) ->
  particles s !! r' = Some q -> is_truth q && with_points P q = false ->
  cases r' s (inr tt) s' ->
  untouched d v s -> untouched d v s'.
Proof.
  intros Hd Hq Hnot Hc (Hv & Ht).
  inversion Hc; subst.
  - split; assumption.
  - exfalso. match goal with H : particles s !! r' = Some ?x |- _ =>
      rewrite Hq in H; injection H as <- end.
    unfold with_points in Hnot.
    match goal with H : get_points _ q = inr ?l, H' : ?l <> [] |- _ =>
      rewrite H in Hnot; destruct l; [congruence|] end.
    match goal with H : is_truth q = true |- _ => rewrite H in Hnot end.
    discriminate.
  - match goal with H : tensors s !! "depositions" = Some ?t |- _ =>
      pose proof (Ht _ H) as Hlt end.
    split; [|exact Ht]. simpl.
    rewrite list_lookup_insert_ne by lia.
    rewrite lookup_app_l by exact Hd. exact Hv.
Qed.

Lemma later_loop_keeps s1 r d p rs : forall s s',
  particles s1 !! r = Some p -> is_truth p = true ->
  (forall r' q, r' ∈ rs -> particles s1 !! r' = Some q ->
      is_truth q && with_points P q = false) ->
  calib_frame s1 s ->
  for_each rs step s = (inr tt, s') ->
  truth_bound P r d s ->
  truth_bound P r d s'
  /\ forall v, untouched d v s -> untouched d v s'.
Proof.
  induction rs as [|r' rs IH]; intros s s' Hp Ht Hnot Hfr Hrun Hb.
  - injection Hrun as <-. split; [exact Hb|auto].
  - rewrite for_each_cons in Hrun.
    destruct (step r' s) as [[e|[]] s2] eqn:Hstep; [discriminate|].
    pose proof (step_cases_run num TRACK_SHP P rid r' s _ _ Hstep) as Hc.
    pose proof (cases_frame num TRACK_SHP P rid r' s _ _ Hc) as Hfr2.
    destruct (Hfr) as (_ & _ & _ & _ & Hparts).
    destruct (Hparts r p Hp) as (p2 & Hp2 & Hs2).
    assert (Hq : exists q, particles s !! r' = Some q
                   /\ is_truth q && with_points P q = false).
    { destruct (particles s !! r') as [q|] eqn:Hq.
      - exists q. split; [reflexivity|].
        destruct (calib_frame_back num s1 s r' q Hfr Hq) as (q0 & Hq0 & Hsq).
        pose proof (Hnot r' q0 ltac:(left) Hq0) as Hn.
        rewrite (same_static_with_points num P q0 q Hsq).
        destruct Hsq as (-> & _). exact Hn.
      - rewrite (step_dangling num TRACK_SHP P rid r' s Hq) in Hstep.
        discriminate. }
    destruct Hq as (q & Hq & Hqn).
    assert (Ht2 : is_truth p2 = true) by (destruct Hs2 as (-> & _); exact Ht).
    pose proof (later_step_keeps r d r' s s2 p2 q Hp2 Ht2 Hq Hqn Hc Hb) as Hb2.
    destruct (IH s2 s' Hp Ht) as [Hb' Hu']; try assumption.
    { intros r'' q' Hin. apply Hnot. right. exact Hin. }
    { eapply calib_frame_trans; eassumption. }
    split; [exact Hb'|].
    intros v Hu. apply Hu'.
    destruct Hb as (Hd & _).
    eapply later_step_untouched; eassumption.
Qed.
End TruthTensor.

Section TruthTensorClaim.
Variable num : Type.
Variable TRACK_SHP : Z.
Variable P : CalibrationProcessor num.
Implicit Types (s : State num) (p : Particle num) (r d : nat).

(** Iterations on particles without points leave the state alone. *)
Lemma quiet_loop rid rs : forall s s',
  (forall r' q, r' ∈ rs -> particles s !! r' = Some q ->
     with_points P q = false) ->
  for_each rs (calibration_process_part TRACK_SHP P rid) s = (inr tt, s') ->
  s' = s.
Proof.
  induction rs as [|r rs IH]; intros s s' Hq Hrun.
  - injection Hrun as <-. reflexivity.
  - rewrite for_each_cons in Hrun.
    destruct (calibration_process_part TRACK_SHP P rid r s)
      as [[e|[]] s2] eqn:Hstep; [discriminate|].
    pose proof (step_cases_run num TRACK_SHP P rid r s _ _ Hstep) as Hc.
    assert (E : s2 = s).
    { inversion Hc; subst; [reflexivity| |];
        exfalso;
        match goal with
        | Hp : particles s !! r = Some ?x, Hg : get_points _ ?x = inr ?l,
          Hn : ?l <> [] |- _ =>
          pose proof (Hq r x ltac:(left) Hp) as Hw;
          unfold with_points in Hw; rewrite Hg in Hw;
          destruct l; [congruence|discriminate]
        end. }
    subst s2. apply IH; [|exact Hrun].
    intros r' q Hin. apply Hq. right. exact Hin.
Qed.

(** C5, as the code has it: for a truth particle with points, the
    corrected sequence [v] becomes a new array object that is bound to the
    resolved truth attribute of the particle and, wholesale, to the
    resolved truth tensor key of [data].  When no truth particle with
    points is visited after it, that key and that attribute still name
    this one array when [process] returns.  The array still holds [v] if
    the resolved key is not the reco tensor [depositions], or if no
    reconstructed particle with points is visited afterwards; a later
    write-back under the key [depositions] writes into it. *)
Theorem truth_tensor_replaced st st' rs1 r rs2 s1 p pts l deps v :
  flat_refs (obj_keys (cp_base P)) (collections st) = Some (rs1 ++ r :: rs2) ->
  for_each rs1 (calibration_process_part TRACK_SHP P (run_info st)) st
    = (inr tt, s1) ->
  particles s1 !! r = Some p ->
  is_truth p = true ->
  check_units p = inr tt ->
  get_points (cp_base P) p = inr pts -> pts <> [] ->
  getattr_dep p "depositions" = inr l -> arrays s1 !! l = Some deps ->
  collaborate (calibrator P)
    (issued_call TRACK_SHP P (run_info st) p pts deps) = inr v ->
  (forall r' q, r' ∈ rs2 -> particles s1 !! r' = Some q ->
     is_truth q && with_points P q = false) ->
  calibration_process TRACK_SHP P st = (inr tt, st') ->
  let d := length (arrays s1) in
  (exists s2,
     calibration_process_part TRACK_SHP P (run_info st) r s1 = (inr tt, s2)
     /\ tensors s2 = <[truth_dep_key P := d]> (tensors s1)
     /\ particles s2 !! r = Some (set_dep_attr (truth_dep_attr P) d p)
     /\ arrays s2 = arrays s1 ++ [v])
  /\ tensors st' !! truth_dep_key P = Some d
  /\ (exists p', particles st' !! r = Some p'
        /\ dep_attrs p' !! truth_dep_attr P = Some d)
  /\ is_Some (arrays st' !! d)
  /\ (truth_dep_key P <> "depositions" -> tensors_valid st ->
      arrays st' !! d = Some v)
  /\ ((forall r' q, r' ∈ rs2 -> particles s1 !! r' = Some q ->
         is_truth q = false -> with_points P q = false) ->
      arrays st' !! d = Some v).
Proof.
  intros Hflat Hpre Hp Ht Hu Hpts Hne Hl Hdeps Hcol Hnot Hrun d.
  rewrite (process_flat num TRACK_SHP P st _ Hflat) in Hrun.
  rewrite for_each_app, Hpre, for_each_cons in Hrun.
  pose proof (step_calibrate num TRACK_SHP P (run_info st) r s1 p pts l deps
                Hp Hu Hpts Hne Hl Hdeps) as Hstep.
  simpl in Hstep. rewrite Hcol, Ht in Hstep.
  rewrite Hstep in Hrun.
  set (s2 := with_tensors (<[truth_dep_key P := length (arrays s1)]>)
               (store_result (truth_dep_attr P) r v
                  (log_call (issued_call TRACK_SHP P (run_info st) p pts deps) s1)))
    in *.
  assert (Hp2 : particles s2 !! r = Some (set_dep_attr (truth_dep_attr P) d p)).
  { simpl. rewrite list_lookup_alter_eq, Hp. reflexivity. }
  assert (Hb : truth_bound P r d s2).
  { split; [simpl; rewrite length_app; simpl; lia|].
    split; [simpl; apply lookup_insert_eq|].
    eexists. split; [exact Hp2|]. simpl. apply lookup_insert_eq. }
  assert (Hfr : calib_frame s2 s2) by apply calib_frame_refl.
  assert (Hf12 : calib_frame s1 s2).
  { eapply cases_frame with (r := r) (res := inr tt).
    eapply (SC_truth num TRACK_SHP P (run_info st) r s1 p pts l deps v);
      eassumption. }
  destruct (later_loop_keeps num TRACK_SHP P (run_info st) s2 r d
              (set_dep_attr (truth_dep_attr P) d p) rs2 s2 st' Hp2 Ht)
    as [(Hd' & Hk' & Hattr') Hcontent]; try assumption.
  { intros r' q Hin Hq.
    destruct (calib_frame_back num s1 s2 r' q Hf12 Hq) as (q0 & Hq0 & Hsq).
    pose proof (Hnot r' q0 Hin Hq0) as Hn.
    rewrite (same_static_with_points num P q0 q Hsq).
    destruct Hsq as (-> & _). exact Hn. }
  split.
  { exists s2. split; [exact Hstep|]. split; [reflexivity|].
    split; [exact Hp2|reflexivity]. }
  split; [exact Hk'|]. split; [exact Hattr'|].
  split; [apply lookup_lt_is_Some_2; exact Hd'|].
  split.
  { intros Hkey Hvalid.
    apply (Hcontent v). split.
    - simpl. apply list_lookup_middle. reflexivity.
    - intros t. simpl. rewrite lookup_insert_ne by exact Hkey. intros Hdep.
      pose proof (loop_tensors_valid num TRACK_SHP P (run_info st) rs1 st Hvalid)
        as Hv1.
      rewrite Hpre in Hv1. exact (Hv1 _ _ Hdep). }
  intros Hquiet.
  assert (E : st' = s2).
  { apply (quiet_loop (run_info st) rs2 s2 st'); [|exact Hrun].
    intros r' q Hin Hq.
    destruct (calib_frame_back num s1 s2 r' q Hf12 Hq) as (q0 & Hq0 & Hsq).
    rewrite (same_static_with_points num P q0 q Hsq).
    destruct (is_truth q0) eqn:Hq0t.
    - pose proof (Hnot r' q0 Hin Hq0) as Hn. rewrite Hq0t in Hn. exact Hn.
    - exact (Hquiet r' q0 Hin Hq0 Hq0t). }
  rewrite E. simpl. apply list_lookup_middle. reflexivity.
Qed.
End TruthTensorClaim.

Section IndexAssignment.
Context {A : Type}.
Implicit Types (idx : list nat) (vals arr : list A).

Lemma scatter_length idx : forall vals arr,
  length (scatter idx vals arr) = length arr.
Proof.
  induction idx as [|i idx IH]; intros vals arr; [reflexivity|].
  destruct vals as [|x vals]; [reflexivity|]. simpl.
  rewrite IH. apply length_insert.
Qed.

Lemma scatter_lookup_notin idx : forall vals arr i,
  i ∉ idx -> scatter idx vals arr !! i = arr !! i.
Proof.
  induction idx as [|j idx IH]; intros vals arr i Hi; [reflexivity|].
  destruct vals as [|x vals]; [reflexivity|]. simpl.
  apply not_elem_of_cons in Hi as [Hne Hi].
  rewrite IH by exact Hi. apply list_lookup_insert_ne. congruence.
Qed.

Lemma getitem_scatter_disjoint idx0 idx vals arr :
  (forall i, i ∈ idx0 -> i ∈ idx -> False) ->
  getitem idx0 (scatter idx vals arr) = getitem idx0 arr.
Proof.
  intros Hd. unfold getitem. apply map_ext_in. intros i Hi.
  apply scatter_lookup_notin. intros Hin. apply (Hd i); [|exact Hin].
  apply list_elem_of_In. exact Hi.
Qed.

Lemma getitem_scatter idx : forall vals arr,
  NoDup idx -> length vals = length idx ->
  Forall (fun i => i < length arr) idx ->
  getitem idx (scatter idx vals arr) = map Some vals.
Proof.
  induction idx as [|i idx IH]; intros vals arr Hnd Hlen Hin.
  - destruct vals; [reflexivity|discriminate].
  - destruct vals as [|x vals]; [discriminate|].
    apply NoDup_cons in Hnd as [Hni Hnd].
    apply Forall_cons in Hin as [Hi Hin].
    simpl. f_equal.
    + rewrite scatter_lookup_notin by exact Hni.
      apply list_lookup_insert_eq. exact Hi.
    + apply IH; [exact Hnd|simpl in Hlen; lia|].
      eapply Forall_impl; [exact Hin|]. intros j Hj. simpl in Hj.
      rewrite length_insert. exact Hj.
Qed.

Lemma setitem_inr idx vals arr arr' :
  setitem idx vals arr = inr arr' ->
  arr' = scatter idx (broadcast_to (length idx) vals) arr
  /\ length (broadcast_to (length idx) vals) = length idx
  /\ Forall (fun i => i < length arr) idx.
Proof.
  unfold setitem, broadcast_to.
  assert (Hall : forallb (fun i => Nat.ltb i (length arr)) idx = true ->
                 Forall (fun i => i < length arr) idx).
  { intros Hb. apply Forall_forall. intros i Hi.
    rewrite forallb_forall in Hb.
    apply Nat.ltb_lt, Hb, list_elem_of_In, Hi. }
  destruct (Nat.eqb_spec (length vals) (length idx)) as [E|E].
  - destruct (forallb _ idx); [|discriminate].
    intros [= <-]. split; [reflexivity|]. split; [exact E|auto].
  - destruct vals as [|x [|y vals]]; try discriminate.
    destruct (forallb _ idx); [|discriminate].
    intros [= <-]. split; [reflexivity|]. split; [apply length_replicate|auto].
Qed.
End IndexAssignment.

Section RecoTensor.
Variable num : Type.
Variable TRACK_SHP : Z.
Variable P : CalibrationProcessor num.
Variable st : State num.
Variable refs : list nat.
Implicit Types (s : State num) (p : Particle num) (r d : nat).

Hypothesis tensors_ok : tensors_valid st.
Hypothesis truth_elsewhere : forall r p,
  r ∈ refs -> particles st !! r = Some p ->
  is_truth p = true -> with_points P p = true ->
  truth_dep_key P <> "depositions".
Hypothesis index_nodup : forall r p,
  r ∈ refs -> particles st !! r = Some p ->
  is_truth p = false -> with_points P p = true ->
  NoDup (index p).
Hypothesis index_disjoint : forall r1 r2 p1 p2 i,
  r1 ∈ refs -> r2 ∈ refs -> r1 <> r2 ->
  particles st !! r1 = Some p1 -> particles st !! r2 = Some p2 ->
  is_truth p1 = false -> with_points P p1 = true ->
  is_truth p2 = false -> with_points P p2 = true ->
  i ∈ index p1 -> i ∈ index p2 -> False.

Local Abbreviation step := (calibration_process_part TRACK_SHP P (run_info st)).
Local Abbreviation cases := (step_cases TRACK_SHP P (run_info st)).
Local Abbreviation ok := (aligned (length (arrays st))).

Lemma points_seen p pts :
  get_points (cp_base P) p = inr pts -> pts <> [] -> with_points P p = true.
Proof.
  intros H Hne. unfold with_points. rewrite H.
  destruct pts; [congruence|reflexivity].
Qed.

(** One successful iteration keeps the alignment of the particles seen
    so far and aligns the particle it visits. *)
Lemma step_aligned (D : list nat) r s s' :
  r ∈ refs -> (forall r0, r0 ∈ D -> r0 ∈ refs) ->
  calib_frame st s ->
  tensors s !! "depositions" = tensors st !! "depositions" ->
  (forall r0, r0 ∈ D -> reco_with_points P st r0 -> ok s r0) ->
  cases r s (inr tt) s' ->
  tensors s' !! "depositions" = tensors st !! "depositions"
  /\ (forall r0, r0 ∈ D \/ r0 = r -> reco_with_points P st r0 -> ok s' r0).
Proof.
  intros Hr HD Hfr Hten Hal Hc.
  pose proof Hfr as (_ & _ & Hlen & _ & _).
  inversion Hc; subst.
  - (* no points: nothing changes *)
    split; [exact Hten|].
    intros r0 Hr0 Htarget.
    destruct (decide (r0 = r)) as [->|Hne];
      [|destruct Hr0 as [Hin|?]; [apply Hal; assumption|contradiction]].
    exfalso. destruct Htarget as (p0 & Hp0 & _ & Hwp).
    match goal with H : particles s' !! r = Some ?x |- _ =>
      destruct (calib_frame_back num st s' r x Hfr H) as (q & Hq & Hsq);
      rewrite Hp0 in Hq; injection Hq as <-;
      rewrite <- (same_static_with_points num P p0 x Hsq) in Hwp;
      unfold with_points in Hwp
    end.
    match goal with H : get_points _ _ = inr [] |- _ => rewrite H in Hwp end.
    discriminate.
  - (* a truth particle *)
    match goal with H : particles s !! r = Some ?x |- _ =>
      rename x into p'; rename H into Hp' end.
    destruct (calib_frame_back num st s r p' Hfr Hp') as (p0 & Hp0 & Hsq).
    assert (Hkey : truth_dep_key P <> "depositions").
    { apply (truth_elsewhere r p0 Hr Hp0).
      - destruct Hsq as (<- & _). assumption.
      - rewrite <- (same_static_with_points num P p0 p' Hsq).
        eapply points_seen; eassumption. }
    split; [simpl; rewrite lookup_insert_ne by exact Hkey; exact Hten|].
    intros r0 Hr0 Htarget.
    destruct (decide (r0 = r)) as [->|Hne].
    + exfalso. destruct Htarget as (q0 & Hq0 & Hreco & _).
      rewrite Hp0 in Hq0. injection Hq0 as <-.
      destruct Hsq as (Hsame & _). congruence.
    + destruct Hr0 as [Hin|?]; [|contradiction].
      destruct (Hal r0 Hin Htarget)
        as (t & arr & q & d & w & G1 & G2 & G3 & G4 & G5 & G6 & G7).
      exists t, arr, q, d, w.
      split; [simpl; rewrite lookup_insert_ne by exact Hkey; exact G1|].
      split; [simpl; apply lookup_app_l_Some; exact G2|].
      split. { simpl. rewrite list_lookup_alter_ne; [exact G3|]. congruence. }
      split; [exact G4|]. split; [exact G5|].
      split; [simpl; apply lookup_app_l_Some; exact G6|exact G7].
  - (* a reconstructed particle *)
    match goal with H : particles s !! r = Some ?x |- _ =>
      rename x into p'; rename H into Hp' end.
    destruct (calib_frame_back num st s r p' Hfr Hp') as (p0 & Hp0 & Hsq).
    match goal with H : tensors s !! "depositions" = Some ?x |- _ =>
      rename H into Ht end.
    assert (Htlt : t < length (arrays st)).
    { apply (tensors_ok "depositions"). rewrite <- Hten. exact Ht. }
    match goal with H : (arrays s ++ [?x]) !! t = Some arr |- _ =>
      rename H into Harr end.
    rewrite lookup_app_l in Harr by lia.
    match goal with H : setitem _ _ _ = inr _ |- _ =>
      destruct (setitem_inr _ _ _ _ H) as (-> & Hblen & Hrange) end.
    assert (Hreco0 : is_truth p0 = false).
    { destruct Hsq as (<- & _). assumption. }
    assert (Hpts0 : with_points P p0 = true).
    { rewrite <- (same_static_with_points num P p0 p' Hsq).
      eapply points_seen; eassumption. }
    assert (Hidx : index p' = index p0)
      by (destruct Hsq as (_ & _ & E & _); exact E).
    split; [exact Hten|].
    intros r0 Hr0 Htarget.
    destruct (decide (r0 = r)) as [->|Hne].
    + exists t, (scatter (index p') (broadcast_to (length (index p')) v) arr),
        (set_dep_attr "depositions" (length (arrays s)) p'), (length (arrays s)), v.
      split; [exact Ht|].
      split. { simpl. apply list_lookup_insert_eq. rewrite length_app. simpl. lia. }
      split. { simpl. rewrite list_lookup_alter_eq, Hp'. reflexivity. }
      split; [simpl; apply lookup_insert_eq|].
      split; [exact Hlen|].
      split. { simpl. rewrite list_lookup_insert_ne by lia.
               apply list_lookup_middle. reflexivity. }
      simpl. apply getitem_scatter; [|exact Hblen|exact Hrange].
      rewrite Hidx. exact (index_nodup r p0 Hr Hp0 Hreco0 Hpts0).
    + destruct Hr0 as [Hin|?]; [|contradiction].
      destruct (Hal r0 Hin Htarget)
        as (t0 & arr0 & q & d & w & G1 & G2 & G3 & G4 & G5 & G6 & G7).
      rewrite Ht in G1. injection G1 as <-.
      rewrite Harr in G2. injection G2 as <-.
      exists t, (scatter (index p') (broadcast_to (length (index p')) v) arr), q, d, w.
      split; [exact Ht|].
      split. { simpl. apply list_lookup_insert_eq. rewrite length_app. simpl. lia. }
      split. { simpl. rewrite list_lookup_alter_ne by congruence. exact G3. }
      split; [exact G4|]. split; [exact G5|].
      split. { simpl. rewrite list_lookup_insert_ne by lia.
               apply lookup_app_l_Some. exact G6. }
      rewrite <- G7. apply getitem_scatter_disjoint.
      intros i Hi0 Hi.
      destruct (calib_frame_back num st s r0 q Hfr G3) as (q0 & Hq0 & Hsq0).
      destruct Htarget as (q0' & Hq0' & Hreco & Hpts).
      rewrite Hq0 in Hq0'. injection Hq0' as <-.
      assert (Hidx0 : index q = index q0)
        by (destruct Hsq0 as (_ & _ & E & _); exact E).
      rewrite Hidx0 in Hi0. rewrite Hidx in Hi.
      exact (index_disjoint r0 r q0 p0 i (HD r0 Hin) Hr Hne
               Hq0 Hp0 Hreco Hpts Hreco0 Hpts0 Hi0 Hi).
Qed.

Lemma loop_aligned rs : forall (D : list nat) s s',
  (forall r, r ∈ rs -> r ∈ refs) ->
  (forall r0, r0 ∈ D -> r0 ∈ refs) ->
  calib_frame st s ->
  tensors s !! "depositions" = tensors st !! "depositions" ->
  (forall r0, r0 ∈ D -> reco_with_points P st r0 -> ok s r0) ->
  for_each rs step s = (inr tt, s') ->
  forall r0, r0 ∈ D \/ r0 ∈ rs -> reco_with_points P st r0 -> ok s' r0.
Proof.
  induction rs as [|r rs IH]; intros D s s' Hrs HD Hfr Hten Hal Hrun.
  - injection Hrun as <-. intros r0 [Hin|Hin]; [apply Hal, Hin|inversion Hin].
  - rewrite for_each_cons in Hrun.
    destruct (step r s) as [[e|[]] s2] eqn:Hstep; [discriminate|].
    pose proof (step_cases_run num TRACK_SHP P _ r s _ _ Hstep) as Hc.
    pose proof (Hrs r ltac:(left)) as Hr.
    destruct (step_aligned D r s s2 Hr HD Hfr Hten Hal Hc) as [Hten2 Hal2].
    assert (Hfr2 : calib_frame st s2).
    { eapply calib_frame_trans; [exact Hfr|].
      eapply cases_frame. exact Hc. }
    intros r0 Hr0.
    apply (IH (r :: D) s2 s'); try assumption.
    + intros r1 Hr1. apply Hrs. right. exact Hr1.
    + intros r1 Hr1. apply elem_of_cons in Hr1 as [->|Hr1]; [exact Hr|apply HD, Hr1].
    + intros r1 Hr1. apply Hal2. apply elem_of_cons in Hr1 as [->|Hr1];
        [right; reflexivity|left; exact Hr1].
    + destruct Hr0 as [Hin|Hin].
      * left. right. exact Hin.
      * apply elem_of_cons in Hin as [->|Hin]; [left; left|right; exact Hin].
Qed.

(** C2, as the code has it: once [process] has returned, the reco tensor
    read at the index of a reconstructed particle with points is the
    particle's corrected deposition sequence, element by element, as long
    as no truth particle is written to the key [depositions] and the index
    arrays of the reconstructed particles with points are free of
    duplicates and pairwise disjoint. *)
Theorem reco_tensor_aligned st' :
  flat_refs (obj_keys (cp_base P)) (collections st) = Some refs ->
  calibration_process TRACK_SHP P st = (inr tt, st') ->
  forall r p,
    r ∈ refs -> particles st !! r = Some p ->
    is_truth p = false -> with_points P p = true ->
    exists t arr p' d v,
      tensors st' !! "depositions" = Some t
      /\ arrays st' !! t = Some arr
      /\ particles st' !! r = Some p'
      /\ dep_attrs p' !! "depositions" = Some d
      /\ arrays st' !! d = Some v
      /\ getitem (index p') arr = map Some (broadcast_to (length (index p')) v).
Proof.
  intros Hflat Hrun r p Hr Hp Hreco Hpts.
  rewrite (process_flat num TRACK_SHP P st refs Hflat) in Hrun.
  destruct (loop_aligned refs [] st st') with (r0 := r)
    as (t & arr & p' & d & v & H1 & H2 & H3 & H4 & _ & H6 & H7);
    try assumption.
  - auto.
  - intros r0 Hin. inversion Hin.
  - apply calib_frame_refl.
  - reflexivity.
  - intros r0 Hin. inversion Hin.
  - right. exact Hr.
  - exists p. repeat split; assumption.
  - exists t, arr, p', d, v. repeat split; assumption.
Qed.
End RecoTensor.

Section TableLookups.
Variable num : Type.
Variable TRACK_SHP : Z.
Variable resolve_obj_keys : string -> string -> list string.
Variable Cfg : Type.
Variable CalibrationManager : Cfg -> Exn + Calibrator num.

(** A [KeyError] raised by one iteration is the missing [depositions]
    tensor of [data], or comes from the collaborator. *)
Lemma step_key_error (P : CalibrationProcessor num) rid r s k s' :
  calibration_process_part TRACK_SHP P rid r s = (inl (KeyError k), s') ->
  k = "depositions"
  \/ exists c, collaborate (calibrator P) c = inl (KeyError k).
Proof.
  intros H. apply step_cases_run in H. inversion H; subst.
  - discriminate.
  - right. eexists. eassumption.
  - match goal with H : _ \/ _ |- _ => destruct H as [[= ->]|Hk] end.
    + left. reflexivity.
    + discriminate.
Qed.

Lemma process_key_error (P : CalibrationProcessor num) (s : State num) k s' :
  calibration_process TRACK_SHP P s = (inl (KeyError k), s') ->
  k ∈ obj_keys (cp_base P) \/ k = "depositions"
  \/ exists c, collaborate (calibrator P) c = inl (KeyError k).
Proof.
  unfold calibration_process, bind, gets. simpl. intros H.
  apply for_each_raises in H as (k0 & s0 & Hk0 & H).
  unfold calibration_process_key, data_collection, bind, gets in H.
  simpl in H. destruct (collections s0 !! k0) as [rs|].
  - simpl in H. apply for_each_raises in H as (r & s1 & _ & H).
    right. eapply step_key_error. exact H.
  - simpl in H. injection H as -> _. left. exact Hk0.
Qed.

(** C6, as the code has it: the truth point mode is resolved at
    construction through two two-entry tables; a mode outside them makes
    the construction raise the [KeyError] of the dictionary lookup; and a
    [KeyError] raised by [process] is never a miss in these tables: it
    names an object key or the [depositions] tensor missing from [data],
    or it comes from the collaborator. *)
Theorem truth_mode_resolution dx trk obj_type rmode tpm cfg cal :
  CalibrationManager cfg = inr cal ->
  (forall k, is_Some (_dep_attr_map !! k) <-> k = "points" \/ k = "points_adapt")
  /\ (forall k, is_Some (_dep_map !! k) <-> k = "points" \/ k = "points_adapt")
  /\ (tpm = "points" ->
        exists P, CalibrationProcessor_init resolve_obj_keys CalibrationManager
                    dx trk obj_type rmode tpm cfg = inr P
          /\ truth_dep_attr P = "depositions_q"
          /\ truth_dep_key P = "depositions_label_q")
  /\ (tpm = "points_adapt" ->
        exists P, CalibrationProcessor_init resolve_obj_keys CalibrationManager
                    dx trk obj_type rmode tpm cfg = inr P
          /\ truth_dep_attr P = "depositions_adapt_q"
          /\ truth_dep_key P = "depositions")
  /\ (tpm <> "points" -> tpm <> "points_adapt" ->
        CalibrationProcessor_init resolve_obj_keys CalibrationManager
          dx trk obj_type rmode tpm cfg = inl (KeyError tpm))
  /\ (forall (P : CalibrationProcessor num) (s s' : State num) k,
        calibration_process TRACK_SHP P s = (inl (KeyError k), s') ->
        k ∈ obj_keys (cp_base P) \/ k = "depositions"
        \/ exists c, collaborate (calibrator P) c = inl (KeyError k)).
Proof.
  intros Hc.
  assert (Hdom : forall (k : string) (a b : string),
             is_Some (if String.eqb k "points" then Some a
                      else if String.eqb k "points_adapt" then Some b else None)
             <-> k = "points" \/ k = "points_adapt").
  { intros k a b.
    destruct (String.eqb_spec k "points") as [->|H1].
    - split; [left; reflexivity|eexists; reflexivity].
    - destruct (String.eqb_spec k "points_adapt") as [->|H2].
      + split; [right; reflexivity|eexists; reflexivity].
      + split; [intros [x Hx]; discriminate|intros [?|?]; contradiction]. }
  split. { intros k. rewrite dep_attr_map_lookup. apply Hdom. }
  split. { intros k. rewrite dep_map_lookup. apply Hdom. }
  split.
  { intros ->. eexists. split.
    - eapply init_hit; [exact Hc|reflexivity|reflexivity].
    - split; reflexivity. }
  split.
  { intros ->. eexists. split.
    - eapply init_hit; [exact Hc|reflexivity|reflexivity].
    - split; reflexivity. }
  split.
  { intros H1 H2. eapply init_miss; [exact Hc|].
    rewrite dep_attr_map_lookup.
    destruct (String.eqb_spec tpm "points"); [contradiction|].
    destruct (String.eqb_spec tpm "points_adapt"); [contradiction|reflexivity]. }
  intros P s s' k. apply process_key_error.
Qed.
End TableLookups.

Section FactorEvaluation.
Variable num : Type.
Variable resolve_obj_keys : string -> string -> list string.
Variable py_eval : string -> Exn + num.

Lemma store_factor_run (x : CfgVal num) log :
  store_factor py_eval x log = (cfg_value py_eval x, log ++ evaluated x).
Proof.
  destruct x as [v|s]; simpl.
  - unfold ret. rewrite app_nil_r. reflexivity.
  - reflexivity.
Qed.

(** C7, as the code has it: a string given for [scaling] or
    [shower_fudge] is handed to [eval] as it is, once, at construction
    ([scaling] first), whatever it contains; the value is stored, and an
    exception raised by [eval] leaves the constructor unchanged. *)
Theorem factors_evaluated sc sf obj_type rmode tdm log :
  let run := CalorimetricEnergyProcessor_init resolve_obj_keys py_eval
               sc sf obj_type rmode tdm log in
  (forall a b, cfg_value py_eval sc = inr a -> cfg_value py_eval sf = inr b ->
     run = (inr (mkCalo (PostBase_init resolve_obj_keys calo_class_keys
                           obj_type rmode None (Some tdm)) a b),
            log ++ evaluated sc ++ evaluated sf))
  /\ (forall e, cfg_value py_eval sc = inl e ->
        run = (inl e, log ++ evaluated sc))
  /\ (forall a e, cfg_value py_eval sc = inr a -> cfg_value py_eval sf = inl e ->
        run = (inl e, log ++ evaluated sc ++ evaluated sf)).
Proof.
  unfold CalorimetricEnergyProcessor_init, bind. simpl.
  rewrite store_factor_run.
  split; [|split].
  - intros a b Ha Hb. rewrite Ha, store_factor_run, Hb.
    unfold ret. rewrite app_assoc. reflexivity.
  - intros e He. rewrite He. reflexivity.
  - intros a e Ha He. rewrite Ha, store_factor_run, He.
    rewrite app_assoc. reflexivity.
Qed.
End FactorEvaluation.

(** The expression [2*3] for [scaling]. *)
Lemma factors_evaluated_witness :
  CalorimetricEnergyProcessor_init Demo.resolve Scenario.py_eval
    (CStr "2*3") (CNum 3%Z) "particle" "reco" "depositions" []
  = (inr (mkCalo (PostBase_init Demo.resolve calo_class_keys
                    "particle" "reco" None (Some "depositions")) 6%Z 3%Z),
     ["2*3"]).
Proof.
  apply (factors_evaluated Z Demo.resolve Scenario.py_eval
           (CStr "2*3") (CNum 3%Z) "particle" "reco" "depositions" []).
  - reflexivity.
  - reflexivity.
Defined.

(** A string that is no arithmetic expression reaches [eval] and its value
    is stored; a malformed expression raises [SyntaxError], not
    [ExpressionError]. *)
Lemma factors_evaluated_counterexample :
  is_arith Scenario.injected = false
  /\ CalorimetricEnergyProcessor_init Demo.resolve Scenario.py_eval
       (CStr Scenario.injected) (CNum 3%Z) "particle" "reco" "depositions" []
     = (inr (mkCalo (PostBase_init Demo.resolve calo_class_keys
                       "particle" "reco" None (Some "depositions")) 0%Z 3%Z),
        [Scenario.injected])
  /\ fst (CalorimetricEnergyProcessor_init Demo.resolve Scenario.py_eval
            (CStr "1 +") (CNum 3%Z) "particle" "reco" "depositions" [])
     = inl SyntaxError
  /\ fst (CalorimetricEnergyProcessor_init Demo.resolve Scenario.py_eval
            (CStr "1 +") (CNum 3%Z) "particle" "reco" "depositions" [])
     <> inl ExpressionError.
Proof.
  split; [reflexivity|]. split; [reflexivity|]. split; [reflexivity|].
  vm_compute. discriminate.
Qed.

(** ** The theorems at concrete entries *)

(** The energies of the three particles: [2*3*6], [2*6] and [0]. *)
Example calo_ke_values :
  map calo_ke
      (particles (snd (calo_process Z.mul Demo.zsum Demo.TRACK_SHP Scenario.calo
                         Scenario.entry_calo)))
  = [Some 36%Z; Some 12%Z; Some 0%Z].
Proof. reflexivity. Qed.

(** The truth track of [Scenario.entry] under [do_tracking = True]. *)
Lemma calibration_mode_witness :
  (do_tracking (Scenario.calibration true "both" "points") = false
   \/ shape (Demo.truth_particle Demo.TRACK_SHP [2] [Demo.pt 3] 2) <> Demo.TRACK_SHP ->
     calls (snd (calibration_process_part Demo.TRACK_SHP
                   (Scenario.calibration true "both" "points") (Some 7%Z) 1
                   Scenario.entry))
     = calls Scenario.entry
       ++ [CallSimple [Demo.pt 3] [30%Z] [0%Z] (Some 7%Z) 2%Z]
     /\ calibration_process_part Demo.TRACK_SHP
          (Scenario.calibration true "both" "points") (Some 7%Z) 1
          Scenario.entry
        = settle (Scenario.calibration true "both" "points") 1
            (Demo.truth_particle Demo.TRACK_SHP [2] [Demo.pt 3] 2)
            (CallSimple [Demo.pt 3] [30%Z] [0%Z] (Some 7%Z) 2%Z)
            (calibrator_call Demo.cal [Demo.pt 3] [30%Z] [0%Z] (Some 7%Z) 2%Z)
            Scenario.entry)
  /\ (do_tracking (Scenario.calibration true "both" "points") = true
      /\ shape (Demo.truth_particle Demo.TRACK_SHP [2] [Demo.pt 3] 2) = Demo.TRACK_SHP ->
        calls (snd (calibration_process_part Demo.TRACK_SHP
                      (Scenario.calibration true "both" "points") (Some 7%Z) 1
                      Scenario.entry))
        = calls Scenario.entry
          ++ [CallProcess [Demo.pt 3] [30%Z] [0%Z] (Some 7%Z) true]
        /\ calibration_process_part Demo.TRACK_SHP
             (Scenario.calibration true "both" "points") (Some 7%Z) 1
             Scenario.entry
           = settle (Scenario.calibration true "both" "points") 1
               (Demo.truth_particle Demo.TRACK_SHP [2] [Demo.pt 3] 2)
               (CallProcess [Demo.pt 3] [30%Z] [0%Z] (Some 7%Z) true)
               (calibrator_process Demo.cal [Demo.pt 3] [30%Z] [0%Z]
                  (Some 7%Z) true)
               Scenario.entry).
Proof.
  apply (calibration_mode Z Demo.TRACK_SHP
           (Scenario.calibration true "both" "points") (Some 7%Z) 1 Scenario.entry
           (Demo.truth_particle Demo.TRACK_SHP [2] [Demo.pt 3] 2)
           [Demo.pt 3] 2 [30%Z]);
    first [reflexivity | discriminate].
Defined.

(** The mode shows in the data: the track-segmented collaborator of
    [Demo.cal] adds one, the simple one doubles. *)
Example tracking_changes_result :
  arrays (snd (calibration_process_part Demo.TRACK_SHP
                 (Scenario.calibration true "both" "points") (Some 7%Z) 1
                 Scenario.entry)) !! 3 = Some [31%Z]
  /\ arrays (snd (calibration_process_part Demo.TRACK_SHP
                    (Scenario.calibration false "both" "points") (Some 7%Z) 1
                    Scenario.entry)) !! 3 = Some [60%Z].
Proof. split; reflexivity. Qed.

(** The same track under [do_tracking = True] and [do_tracking = False]. *)
Example tracking_switch :
  calls (snd (calibration_process_part Demo.TRACK_SHP
                (Scenario.calibration true "both" "points") (Some 7%Z) 1
                Scenario.entry))
  = [CallProcess [Demo.pt 3] [30%Z] [0%Z] (Some 7%Z) true]
  /\ calls (snd (calibration_process_part Demo.TRACK_SHP
                   (Scenario.calibration false "both" "points") (Some 7%Z) 1
                   Scenario.entry))
     = [CallSimple [Demo.pt 3] [30%Z] [0%Z] (Some 7%Z) 2%Z].
Proof. split; reflexivity. Qed.

(** A reconstructed particle without points. *)
Lemma empty_points_skipped_witness :
  snd (calibration_process_part Demo.TRACK_SHP
         (Scenario.calibration false "reco" "points") None 0 Scenario.entry_skip)
    = Scenario.entry_skip
  /\ calls (snd (calibration_process_part Demo.TRACK_SHP
                   (Scenario.calibration false "reco" "points") None 0
                   Scenario.entry_skip))
     = calls Scenario.entry_skip
  /\ (check_units Scenario.no_points = inr tt ->
      calibration_process_part Demo.TRACK_SHP
        (Scenario.calibration false "reco" "points") None 0 Scenario.entry_skip
      = (inr tt, Scenario.entry_skip)).
Proof.
  apply (empty_points_skipped Z Demo.TRACK_SHP
           (Scenario.calibration false "reco" "points") None 0
           Scenario.entry_skip Scenario.no_points); reflexivity.
Defined.

(** The second particle of [Scenario.entry_mm] is in millimeters. *)
Lemma unit_error_aborts_witness :
  calibration_process Demo.TRACK_SHP (Scenario.calibration false "reco" "points")
    Scenario.entry_mm
  = (inl UnitError,
     snd (calibration_process_part Demo.TRACK_SHP
            (Scenario.calibration false "reco" "points") None 0 Scenario.entry_mm)).
Proof.
  apply (unit_error_aborts Z Demo.TRACK_SHP
           (Scenario.calibration false "reco" "points") Scenario.entry_mm
           [] "reco_particles" [] [0] 1 [] Scenario.entry_mm
           (snd (calibration_process_part Demo.TRACK_SHP
                   (Scenario.calibration false "reco" "points") None 0
                   Scenario.entry_mm))
           Scenario.in_mm); reflexivity.
Defined.

(** The first particle of that entry keeps its calibration: its new array
    and the tensor positions 0 and 1 hold the doubled depositions. *)
Example unit_error_keeps_writes :
  arrays (snd (calibration_process Demo.TRACK_SHP
                 (Scenario.calibration false "reco" "points") Scenario.entry_mm))
  = [[20; 40; 30]; [10; 20]; [30]; [20; 40]]%Z.
Proof. reflexivity. Qed.

(** The point mode [points_g4], which the tables do not hold. *)
Lemma truth_mode_resolution_witness :
  (forall k, is_Some (_dep_attr_map !! k) <-> k = "points" \/ k = "points_adapt")
  /\ (forall k, is_Some (_dep_map !! k) <-> k = "points" \/ k = "points_adapt")
  /\ ("points_g4" = "points" ->
        exists P, CalibrationProcessor_init Demo.resolve Demo.manager
                    2%Z false "particle" "reco" "points_g4" tt = inr P
          /\ truth_dep_attr P = "depositions_q"
          /\ truth_dep_key P = "depositions_label_q")
  /\ ("points_g4" = "points_adapt" ->
        exists P, CalibrationProcessor_init Demo.resolve Demo.manager
                    2%Z false "particle" "reco" "points_g4" tt = inr P
          /\ truth_dep_attr P = "depositions_adapt_q"
          /\ truth_dep_key P = "depositions")
  /\ ("points_g4" <> "points" -> "points_g4" <> "points_adapt" ->
        CalibrationProcessor_init Demo.resolve Demo.manager
          2%Z false "particle" "reco" "points_g4" tt = inl (KeyError "points_g4"))
  /\ (forall (P : CalibrationProcessor Z) (s s' : State Z) k,
        calibration_process Demo.TRACK_SHP P s = (inl (KeyError k), s') ->
        k ∈ obj_keys (cp_base P) \/ k = "depositions"
        \/ exists c, collaborate (calibrator P) c = inl (KeyError k)).
Proof.
  apply (truth_mode_resolution Z Demo.TRACK_SHP Demo.resolve unit Demo.manager
           2%Z false "particle" "reco" "points_g4" tt Demo.cal).
  reflexivity.
Defined.

(** The constructor raises [KeyError], not [ConfigurationError]. *)
Lemma truth_mode_resolution_counterexample :
  CalibrationProcessor_init Demo.resolve Demo.manager
    2%Z false "particle" "reco" "points_g4" tt = inl (KeyError "points_g4")
  /\ CalibrationProcessor_init Demo.resolve Demo.manager
       2%Z false "particle" "reco" "points_g4" tt <> inl ConfigurationError.
Proof.
  split; [reflexivity|]. vm_compute. discriminate.
Qed.

(** The reconstructed shower of [Scenario.entry] under the point mode
    [points]. *)
Lemma reco_tensor_aligned_witness :
  exists t arr p' d v,
    tensors Runs.after !! "depositions" = Some t
    /\ arrays Runs.after !! t = Some arr
    /\ particles Runs.after !! 0 = Some p'
    /\ dep_attrs p' !! "depositions" = Some d
    /\ arrays Runs.after !! d = Some v
    /\ getitem (index p') arr = map Some (broadcast_to (length (index p')) v).
Proof.
  apply (reco_tensor_aligned Z Demo.TRACK_SHP Runs.P Scenario.entry [0; 1])
    with (p := Demo.reco_particle Demo.SHOWR_SHP [0; 1] [Demo.pt 1; Demo.pt 2] 1);
    try reflexivity.
  - intros k t Hk. unfold Scenario.entry, tensors in Hk.
    apply lookup_insert_Some in Hk as [[_ <-]|[_ Hk]].
    + simpl. lia.
    + rewrite lookup_empty in Hk. discriminate.
  - intros r p _ _ _ _. discriminate.
  - intros r p Hr Hp Hreco _.
    apply elem_of_cons in Hr as [->|Hr].
    + injection Hp as <-. simpl. apply NoDup_cons. split.
      * intros H. apply elem_of_cons in H as [H|H]; [discriminate|inversion H].
      * apply NoDup_cons. split; [intros H; inversion H|apply NoDup_nil_2].
    + apply elem_of_cons in Hr as [->|Hr]; [|inversion Hr].
      injection Hp as <-. discriminate.
  - intros r1 r2 p1 p2 i Hr1 Hr2 Hne Hp1 Hp2 Ht1 _ Ht2 _ _ _.
    apply elem_of_cons in Hr1 as [->|Hr1].
    + apply elem_of_cons in Hr2 as [->|Hr2]; [congruence|].
      apply elem_of_cons in Hr2 as [->|Hr2]; [|inversion Hr2].
      injection Hp2 as <-. discriminate.
    + apply elem_of_cons in Hr1 as [->|Hr1]; [|inversion Hr1].
      injection Hp1 as <-. discriminate.
  - left.
Defined.

(** With [truth_point_mode = 'points_adapt'] the truth particle, visited
    last, rebinds [data['depositions']] to its own one-element array: the
    reconstructed particle keeps [20, 40] on the index [0, 1], where the
    tensor now reads [60] and nothing. *)
Lemma reco_tensor_aligned_counterexample :
  calibration_process Demo.TRACK_SHP Runs.P_adapt Scenario.entry
    = (inr tt, Runs.after_adapt)
  /\ reco_with_points Runs.P_adapt Scenario.entry 0
  /\ exists t arr p' d v,
       tensors Runs.after_adapt !! "depositions" = Some t
       /\ arrays Runs.after_adapt !! t = Some arr
       /\ particles Runs.after_adapt !! 0 = Some p'
       /\ dep_attrs p' !! "depositions" = Some d
       /\ arrays Runs.after_adapt !! d = Some v
       /\ length v = length (index p')
       /\ getitem (index p') arr = [Some 60%Z; None]
       /\ map Some v = [Some 20%Z; Some 40%Z]
       /\ getitem (index p') arr <> map Some v.
Proof.
  split; [reflexivity|]. split.
  { eexists. split; [reflexivity|]. split; reflexivity. }
  exists 4, [60%Z].
  eexists. exists 3, [20%Z; 40%Z].
  split; [reflexivity|]. split; [reflexivity|]. split; [reflexivity|].
  split; [reflexivity|]. split; [reflexivity|]. split; [reflexivity|].
  split; [reflexivity|]. split; [reflexivity|]. discriminate.
Qed.

(** Why the index arrays must be disjoint: the second particle overwrites
    position 1, so the first one keeps [20, 40] where the tensor reads
    [20, 50]. *)
Example overlapping_indices_diverge :
  arrays Overlap.after = [[20; 50; 60]; [10; 20]; [25; 30]; [20; 40]; [50; 60]]%Z
  /\ (dep_attrs <$> particles Overlap.after !! 0) = Some (<["depositions" := 3]> ∅)
  /\ getitem [0; 1] [20; 50; 60]%Z <> map Some [20; 40]%Z.
Proof. split; [reflexivity|]. split; [reflexivity|]. discriminate. Qed.

(** Why the index arrays must be free of duplicates: numpy keeps the last
    write to a repeated position. *)
Example repeated_index_diverges :
  setitem [0; 0] [1; 2]%Z [7; 8]%Z = inr [2; 8]%Z
  /\ getitem [0; 0] [2; 8]%Z <> map Some [1; 2]%Z.
Proof. split; [reflexivity|discriminate]. Qed.

(** A one-element result is broadcast over the index. *)
Example broadcast_assignment :
  setitem [0; 2] [5]%Z [7; 8; 9]%Z = inr [5; 8; 5]%Z
  /\ getitem [0; 2] [5; 8; 5]%Z = map Some (broadcast_to 2 [5]%Z).
Proof. split; reflexivity. Qed.

Section SiblingFactories.
Variable Obj : Type.
Variable module_dict : PyVal Obj -> string -> PyVal Obj.
Variable instantiate :
  PyVal Obj -> PyVal Obj -> list (string * PyVal Obj) -> Exn + PyVal Obj.

(** The node and edge constructors, whose signatures bind [edge_in],
    reach [instantiate] with the three sizes. *)
Lemma node_layer_construct_instantiates cfg node_in edge_in glob_in log :
  node_layer_construct module_dict instantiate cfg node_in edge_in glob_in log
  = (instantiate (module_dict (VModule "layers") "Node") cfg
       [("node_in", node_in); ("edge_in", edge_in); ("glob_in", glob_in)],
     log ++ [mkInstantiation (module_dict (VModule "layers") "Node") cfg
               [("node_in", node_in); ("edge_in", edge_in);
                ("glob_in", glob_in)]]).
Proof.
  unfold node_layer_construct, bind at 1.
  rewrite bind_layer_dict_frame by reflexivity.
  reflexivity.
Qed.

Lemma edge_layer_construct_instantiates cfg node_in edge_in glob_in log :
  edge_layer_construct module_dict instantiate cfg node_in edge_in glob_in log
  = (instantiate (module_dict (VModule "layers") "Edge") cfg
       [("node_in", node_in); ("edge_in", edge_in); ("glob_in", glob_in)],
     log ++ [mkInstantiation (module_dict (VModule "layers") "Edge") cfg
               [("node_in", node_in); ("edge_in", edge_in);
                ("glob_in", glob_in)]]).
Proof.
  unfold edge_layer_construct, bind at 1.
  rewrite bind_layer_dict_frame by reflexivity.
  reflexivity.
Qed.
End SiblingFactories.

(** The shower of the specification: [2.0 * 1.5 * 6.0 = 18.0]; the same
    particle as a track: [2.0 * 6.0 = 12.0]. *)
Example shower_scenario : FloatScenario.energy Demo.SHOWR_SHP = [Some 18%float].
Proof. vm_compute. reflexivity. Qed.

Example track_scenario : FloatScenario.energy Demo.TRACK_SHP = [Some 12%float].
Proof. vm_compute. reflexivity. Qed.

(** ** More on the calorimetric energy *)

Section CaloEnergyFrame.
Variable num : Type.
Variable nmul : num -> num -> num.
Variable np_sum : list num -> num.
Variable TRACK_SHP : Z.
Variable P : CalorimetricEnergyProcessor num.
Implicit Types (s : State num) (p : Particle num) (r : nat) (v : num).

Local Abbreviation part := (calo_process_part nmul np_sum TRACK_SHP P).
Local Abbreviation key_body := (calo_process_key nmul np_sum TRACK_SHP P).
Local Abbreviation spec := (calo_ke_spec nmul np_sum TRACK_SHP P).
Local Abbreviation done := (calo_done nmul np_sum TRACK_SHP P).

(** An iteration either leaves the state or writes one [calo_ke]. *)
Lemma part_outcome r s :
  snd (part r s) = s
  \/ exists v, snd (part r s) = with_particles (alter (set_calo_ke v) r) s.
Proof.
  unfold calo_process_part, load_particle, load_array, bind, gets, lift, modify.
  simpl. destruct (particles s !! r) as [p|]; [|left; reflexivity]. simpl.
  destruct (get_depositions (calo_base P) p) as [e|l]; [left; reflexivity|].
  simpl. destruct (arrays s !! l) as [deps|]; [|left; reflexivity]. simpl.
  right. eexists. reflexivity.
Qed.

Lemma part_frame s0 r s :
  calo_frame s0 s /\ length (particles s) = length (particles s0) ->
  calo_frame s0 (snd (part r s))
  /\ length (particles (snd (part r s))) = length (particles s0).
Proof.
  intros [Hf Hl]. destruct (part_outcome r s) as [->|[v ->]].
  - split; assumption.
  - split; [apply frame_after_write; exact Hf|].
    simpl. rewrite length_alter. exact Hl.
Qed.

Lemma key_frame s0 k s :
  calo_frame s0 s /\ length (particles s) = length (particles s0) ->
  calo_frame s0 (snd (key_body k s))
  /\ length (particles (snd (key_body k s))) = length (particles s0).
Proof.
  intros H. unfold calo_process_key, data_collection, bind, gets. simpl.
  destruct (collections s !! k) as [rs|]; [|exact H]. simpl.
  apply (for_each_invariant
           (fun s1 => calo_frame s0 s1
                      /\ length (particles s1) = length (particles s0))).
  - intros r s1 _. apply part_frame.
  - exact H.
Qed.

(** Whether it returns or raises, [process] changes nothing but the
    [calo_ke] of particle objects: arrays, [data] and the other attributes
    are as before, no particle object appears or disappears and the
    calibration collaborator is not invoked. *)
Theorem calo_process_writes_energy_only s :
  calo_frame s (snd (calo_process nmul np_sum TRACK_SHP P s))
  /\ length (particles (snd (calo_process nmul np_sum TRACK_SHP P s)))
     = length (particles s).
Proof.
  unfold calo_process.
  apply (for_each_invariant
           (fun s1 => calo_frame s s1
                      /\ length (particles s1) = length (particles s))).
  - intros k s1 _. apply key_frame.
  - split; [apply calo_frame_refl|reflexivity].
Qed.

(** When [data] lacks an object key, [process] raises [KeyError] for the
    first such key; the collections before it have been processed. *)
Theorem calo_process_missing_key s ks1 k ks2 s1 :
  obj_keys (calo_base P) = ks1 ++ k :: ks2 ->
  for_each ks1 key_body s = (inr tt, s1) ->
  collections s !! k = None ->
  calo_process nmul np_sum TRACK_SHP P s = (inl (KeyError k), s1).
Proof.
  intros Hk H1 Hc. unfold calo_process.
  rewrite Hk, for_each_app, H1, for_each_cons.
  assert (Hcs : collections s1 = collections s).
  { pose proof (for_each_invariant
                  (fun s2 => calo_frame s s2
                             /\ length (particles s2) = length (particles s))
                  key_body ks1 s) as Hinv.
    rewrite H1 in Hinv. simpl in Hinv.
    destruct Hinv as [(_ & Hcs & _) _].
    - intros k0 s0 _. apply key_frame.
    - split; [apply calo_frame_refl|reflexivity].
    - exact Hcs. }
  unfold calo_process_key at 1, data_collection, bind, gets. simpl.
  rewrite Hcs, Hc. reflexivity.
Qed.

Lemma alter_fixed {A : Type} (f : A -> A) (l : list A) i x :
  l !! i = Some x -> f x = x -> alter f i l = l.
Proof.
  intros Hl Hf. apply list_eq. intros j.
  destruct (decide (i = j)) as [<-|Hne].
  - rewrite list_lookup_alter_eq, Hl. simpl. rewrite Hf. reflexivity.
  - apply list_lookup_alter_ne. exact Hne.
Qed.

(** On a state that carries the energy of [r] already, the iteration
    changes nothing. *)
Lemma part_again s0 s r :
  calo_frame s0 s -> done s0 s r -> part r s = (inr tt, s).
Proof.
  intros Hf (p & p' & v & Hp & Hp' & Hv & Hke).
  rewrite (part_run num nmul np_sum TRACK_SHP P s0 s r p v Hf Hp Hv).
  f_equal. destruct s as [a ps c t ri cl]. unfold with_particles. simpl in *.
  f_equal. eapply alter_fixed; [exact Hp'|].
  destruct p'. simpl in Hke. subst. reflexivity.
Qed.

Lemma parts_again s0 s rs :
  calo_frame s0 s -> (forall r, r ∈ rs -> done s0 s r) ->
  for_each rs part s = (inr tt, s).
Proof.
  intros Hf. induction rs as [|r rs IH]; intros Hd; [reflexivity|].
  rewrite for_each_cons, (part_again s0 s r Hf (Hd r ltac:(left))).
  apply IH. intros r' Hr'. apply Hd. right. exact Hr'.
Qed.

Lemma keys_again s0 s ks :
  calo_frame s0 s ->
  (forall k, k ∈ ks -> exists rs, collections s0 !! k = Some rs
                         /\ forall r, r ∈ rs -> done s0 s r) ->
  for_each ks key_body s = (inr tt, s).
Proof.
  intros Hf. induction ks as [|k ks IH]; intros Hd; [reflexivity|].
  destruct (Hd k ltac:(left)) as (rs & Hc & Hrs).
  rewrite for_each_cons.
  unfold calo_process_key at 1, data_collection, bind, gets. simpl.
  pose proof Hf as (Ha & Hcs & Hrest). rewrite Hcs, Hc. simpl.
  rewrite (parts_again s0 s rs); [|exact Hf|exact Hrs].
  apply IH. intros k' Hk'. apply Hd. right. exact Hk'.
Qed.

(** [process] is idempotent: a second pass over the entry finds every
    energy in place and leaves the state as the first pass made it. *)
Theorem calo_process_idempotent s :
  (forall k, k ∈ obj_keys (calo_base P) ->
     exists rs, collections s !! k = Some rs
       /\ forall r, r ∈ rs -> exists p l deps,
            particles s !! r = Some p
            /\ get_depositions (calo_base P) p = inr l
            /\ arrays s !! l = Some deps) ->
  exists s', calo_process nmul np_sum TRACK_SHP P s = (inr tt, s')
    /\ calo_process nmul np_sum TRACK_SHP P s' = (inr tt, s').
Proof.
  intros Hready.
  destruct (keys_run num nmul np_sum TRACK_SHP P s (obj_keys (calo_base P)) s
              (calo_frame_refl num s))
    as (s' & Hrun & Hf & Hall & _).
  { intros k Hk. destruct (Hready k Hk) as (rs & Hc & Hrs).
    exists rs. split; [exact Hc|]. intros r Hr.
    destruct (Hrs r Hr) as (p & l & deps & Hp & Hl & Hd).
    exists p. eexists. split; [exact Hp|].
    unfold calo_ke_spec. rewrite Hl, Hd. reflexivity. }
  exists s'. split; [exact Hrun|].
  unfold calo_process. apply (keys_again s s' _ Hf).
  intros k Hk. destruct (Hready k Hk) as (rs & Hc & _).
  exists rs. split; [exact Hc|]. intros r Hr. eapply Hall; eassumption.
Qed.
End CaloEnergyFrame.

(** ** More on the calibration loop: what it keeps, how it fails *)

Section CalibrationFailures.
Variable num : Type.
Variable TRACK_SHP : Z.
Variable P : CalibrationProcessor num.
Implicit Types (s : State num) (p : Particle num) (r : nat).

Local Abbreviation step := (calibration_process_part TRACK_SHP P).
Local Abbreviation key_body := (calibration_process_key TRACK_SHP P).

Lemma key_body_frame rid k s : calib_frame s (snd (key_body rid k s)).
Proof.
  unfold calibration_process_key, data_collection, bind, gets. simpl.
  destruct (collections s !! k) as [rs|]; [|apply calib_frame_refl].
  simpl. apply loop_frame.
Qed.

Lemma keys_frame rid ks s : calib_frame s (snd (for_each ks (key_body rid) s)).
Proof.
  apply (for_each_invariant (calib_frame s)); [|apply calib_frame_refl].
  intros k s0 _ H. eapply calib_frame_trans; [exact H|apply key_body_frame].
Qed.

(** Whether it returns or raises, [process] leaves the object collections
    and the run information of [data] as they are, keeps every particle
    object with its [is_truth], [shape], [index], [units], [sources] and
    points, and never drops an array object. *)
Theorem calibration_process_frame s :
  calib_frame s (snd (calibration_process TRACK_SHP P s)).
Proof.
  unfold calibration_process, bind, gets. simpl. apply keys_frame.
Qed.

(** [process] handles no exception: whatever an iteration raises, [process]
    raises, in the state that the iteration left; nothing after that
    particle is visited. *)
Theorem calibration_first_failure_aborts s ks1 k ks2 rs1 r rs2 s1 s2 e s3 :
  obj_keys (cp_base P) = ks1 ++ k :: ks2 ->
  for_each ks1 (key_body (run_info s)) s = (inr tt, s1) ->
  collections s1 !! k = Some (rs1 ++ r :: rs2) ->
  for_each rs1 (step (run_info s)) s1 = (inr tt, s2) ->
  step (run_info s) r s2 = (inl e, s3) ->
  calibration_process TRACK_SHP P s = (inl e, s3).
Proof.
  intros Hk H1 Hc H2 H3.
  unfold calibration_process, bind, gets. simpl.
  rewrite Hk, for_each_app, H1, for_each_cons.
  unfold calibration_process_key at 1, data_collection, bind, gets. simpl.
  rewrite Hc. simpl. rewrite for_each_app, H2, for_each_cons, H3. reflexivity.
Qed.

(** When [data] lacks an object key, [process] raises [KeyError] for the
    first such key, after the collections before it were calibrated. *)
Theorem calibration_missing_key s ks1 k ks2 s1 :
  obj_keys (cp_base P) = ks1 ++ k :: ks2 ->
  for_each ks1 (key_body (run_info s)) s = (inr tt, s1) ->
  collections s !! k = None ->
  calibration_process TRACK_SHP P s = (inl (KeyError k), s1).
Proof.
  intros Hk H1 Hc.
  unfold calibration_process, bind, gets. simpl.
  rewrite Hk, for_each_app, H1, for_each_cons.
  pose proof (keys_frame (run_info s) ks1 s) as (Hcs & _).
  rewrite H1 in Hcs. simpl in Hcs.
  unfold calibration_process_key at 1, data_collection, bind, gets. simpl.
  rewrite Hcs, Hc. reflexivity.
Qed.

(** A particle with points but without the attribute [depositions] makes
    the iteration raise [AttributeError] before the collaborator is
    invoked; this holds for truth particles too, whose result would go to
    another attribute. *)
Theorem calibration_needs_depositions rid r s p pts :
  particles s !! r = Some p -> check_units p = inr tt ->
  get_points (cp_base P) p = inr pts -> pts <> [] ->
  dep_attrs p !! "depositions" = None ->
  step rid r s = (inl (AttributeError "depositions"), s).
Proof.
  intros Hp Hu Hpts Hne Hd.
  apply (step_no_depositions num TRACK_SHP P rid r s p pts); try assumption.
  unfold getattr_dep. rewrite Hd. reflexivity.
Qed.

(** An exception of the collaborator leaves the iteration as it is: the
    invocation is the only trace, no particle, array or tensor is
    written. *)
Theorem calibration_collaborator_failure rid r s p pts l deps e :
  particles s !! r = Some p -> check_units p = inr tt ->
  get_points (cp_base P) p = inr pts -> pts <> [] ->
  getattr_dep p "depositions" = inr l -> arrays s !! l = Some deps ->
  collaborate (calibrator P) (issued_call TRACK_SHP P rid p pts deps) = inl e ->
  exists s', step rid r s = (inl e, s')
    /\ particles s' = particles s /\ arrays s' = arrays s
    /\ tensors s' = tensors s
    /\ calls s' = calls s ++ [issued_call TRACK_SHP P rid p pts deps].
Proof.
  intros Hp Hu Hpts Hne Hl Hd Hc.
  rewrite (step_calibrate num TRACK_SHP P rid r s p pts l deps) by assumption.
  rewrite Hc. eexists. split; [reflexivity|]. repeat split.
Qed.

(** The reco branch from the write-back on. *)
Lemma step_reco_write_back rid r s p pts l deps v :
  particles s !! r = Some p -> check_units p = inr tt ->
  get_points (cp_base P) p = inr pts -> pts <> [] ->
  getattr_dep p "depositions" = inr l -> arrays s !! l = Some deps ->
  collaborate (calibrator P) (issued_call TRACK_SHP P rid p pts deps) = inr v ->
  is_truth p = false ->
  step rid r s
  = write_back (index p) v
      (store_result "depositions" r v
         (log_call (issued_call TRACK_SHP P rid p pts deps) s)).
Proof.
  intros Hp Hu Hpts Hne Hl Hd Hc Ht.
  rewrite (step_calibrate num TRACK_SHP P rid r s p pts l deps) by assumption.
  rewrite Hc, Ht. reflexivity.
Qed.

(** Without [data['depositions']] a reconstructed particle with points is
    still calibrated and still receives its corrected array; only then
    does the iteration raise [KeyError]. *)
Theorem calibration_missing_tensor rid r s p pts l deps v :
  particles s !! r = Some p -> check_units p = inr tt ->
  get_points (cp_base P) p = inr pts -> pts <> [] ->
  getattr_dep p "depositions" = inr l -> arrays s !! l = Some deps ->
  collaborate (calibrator P) (issued_call TRACK_SHP P rid p pts deps) = inr v ->
  is_truth p = false ->
  tensors s !! "depositions" = None ->
  exists s', step rid r s = (inl (KeyError "depositions"), s')
    /\ particles s' !! r
       = Some (set_dep_attr "depositions" (length (arrays s)) p)
    /\ arrays s' = arrays s ++ [v]
    /\ tensors s' = tensors s
    /\ calls s' = calls s ++ [issued_call TRACK_SHP P rid p pts deps].
Proof.
  intros Hp Hu Hpts Hne Hl Hd Hc Ht Hten.
  rewrite (step_reco_write_back rid r s p pts l deps v) by assumption.
  unfold write_back, data_tensor, bind, gets. simpl. rewrite Hten. simpl.
  eexists. split; [reflexivity|]. simpl.
  rewrite list_lookup_alter_eq, Hp. repeat split.
Qed.

Lemma setitem_out_of_range {A : Type} idx (v arr : list A) i :
  length v = length idx ->
  i ∈ idx -> length arr <= i -> setitem idx v arr = inl IndexError.
Proof.
  intros Hlen Hi Hle. unfold setitem.
  rewrite Hlen, Nat.eqb_refl.
  destruct (forallb _ idx) eqn:Hb; [|reflexivity].
  rewrite forallb_forall in Hb.
  specialize (Hb i (proj1 (list_elem_of_In _ _) Hi)).
  apply Nat.ltb_lt in Hb. lia.
Qed.

Lemma setitem_shape_mismatch {A : Type} idx (v arr : list A) :
  length v <> length idx -> length v <> 1 ->
  setitem idx v arr = inl ValueError.
Proof.
  intros Hl H1. unfold setitem.
  destruct (Nat.eqb_spec (length v) (length idx)); [contradiction|].
  destruct v as [|x [|y v]]; simpl in *; try reflexivity. lia.
Qed.

(** When the write-back fails, the particle has its corrected array and
    the tensor is as before. *)
Lemma step_write_back_fails rid r s p pts l deps v t arr e :
  particles s !! r = Some p -> check_units p = inr tt ->
  get_points (cp_base P) p = inr pts -> pts <> [] ->
  getattr_dep p "depositions" = inr l -> arrays s !! l = Some deps ->
  collaborate (calibrator P) (issued_call TRACK_SHP P rid p pts deps) = inr v ->
  is_truth p = false ->
  tensors s !! "depositions" = Some t -> arrays s !! t = Some arr ->
  setitem (index p) v arr = inl e ->
  exists s', step rid r s = (inl e, s')
    /\ particles s' !! r
       = Some (set_dep_attr "depositions" (length (arrays s)) p)
    /\ arrays s' = arrays s ++ [v]
    /\ arrays s' !! t = Some arr.
Proof.
  intros Hp Hu Hpts Hne Hl Hd Hc Ht Hten Harr Hset.
  rewrite (step_reco_write_back rid r s p pts l deps v) by assumption.
  unfold write_back, data_tensor, load_array, bind, gets, lift. simpl.
  rewrite Hten. simpl.
  rewrite (lookup_app_l_Some _ _ _ _ Harr). simpl. rewrite Hset.
  eexists. split; [reflexivity|]. simpl.
  rewrite list_lookup_alter_eq, Hp.
  split; [reflexivity|]. split; [reflexivity|].
  apply lookup_app_l_Some. exact Harr.
Qed.

(** An index position beyond the reco tensor makes the iteration raise
    [IndexError] (the corrected sequence having the length of the index):
    the tensor is untouched, not even at the positions in range, while the
    particle already has its corrected array. *)
Theorem calibration_index_out_of_range rid r s p pts l deps v t arr i :
  particles s !! r = Some p -> check_units p = inr tt ->
  get_points (cp_base P) p = inr pts -> pts <> [] ->
  getattr_dep p "depositions" = inr l -> arrays s !! l = Some deps ->
  collaborate (calibrator P) (issued_call TRACK_SHP P rid p pts deps) = inr v ->
  is_truth p = false ->
  tensors s !! "depositions" = Some t -> arrays s !! t = Some arr ->
  length v = length (index p) ->
  i ∈ index p -> length arr <= i ->
  exists s', step rid r s = (inl IndexError, s')
    /\ particles s' !! r
       = Some (set_dep_attr "depositions" (length (arrays s)) p)
    /\ arrays s' = arrays s ++ [v]
    /\ arrays s' !! t = Some arr.
Proof.
  intros Hp Hu Hpts Hne Hl Hd Hc Ht Hten Harr Hlen Hi Hle.
  eapply step_write_back_fails; try eassumption.
  eapply setitem_out_of_range; eassumption.
Qed.

(** A corrected sequence whose length is neither that of the index nor one
    makes the iteration raise [ValueError], with the tensor untouched and
    the particle already rebound. *)
Theorem calibration_length_mismatch rid r s p pts l deps v t arr :
  particles s !! r = Some p -> check_units p = inr tt ->
  get_points (cp_base P) p = inr pts -> pts <> [] ->
  getattr_dep p "depositions" = inr l -> arrays s !! l = Some deps ->
  collaborate (calibrator P) (issued_call TRACK_SHP P rid p pts deps) = inr v ->
  is_truth p = false ->
  tensors s !! "depositions" = Some t -> arrays s !! t = Some arr ->
  Forall (fun i => i < length arr) (index p) ->
  length v <> length (index p) -> length v <> 1 ->
  exists s', step rid r s = (inl ValueError, s')
    /\ particles s' !! r
       = Some (set_dep_attr "depositions" (length (arrays s)) p)
    /\ arrays s' = arrays s ++ [v]
    /\ arrays s' !! t = Some arr.
Proof.
  intros Hp Hu Hpts Hne Hl Hd Hc Ht Hten Harr _ Hlen H1.
  eapply step_write_back_fails; try eassumption.
  apply setitem_shape_mismatch; assumption.
Qed.
End CalibrationFailures.

Section CalibrationInvariants.
Variable num : Type.
Variable TRACK_SHP : Z.
Variable P : CalibrationProcessor num.
Implicit Types (s : State num) (p : Particle num) (r : nat).

Local Abbreviation step := (calibration_process_part TRACK_SHP P).
Local Abbreviation key_body := (calibration_process_key TRACK_SHP P).

(** An invariant of the iterations is an invariant of [process]. *)
Lemma process_invariant (I : State num -> Prop) s :
  (forall r s0, I s0 -> I (snd (step (run_info s) r s0))) ->
  I s -> I (snd (calibration_process TRACK_SHP P s)).
Proof.
  intros Hstep Hs. unfold calibration_process, bind, gets. simpl.
  apply (for_each_invariant I); [|exact Hs].
  intros k s0 _ H0.
  unfold calibration_process_key, data_collection, bind, gets. simpl.
  destruct (collections s0 !! k) as [rs|]; [|exact H0]. simpl.
  apply (for_each_invariant I); [|exact H0].
  intros r s1 _. apply Hstep.
Qed.

Lemma issued_call_configured rid p pts deps :
  call_run_id (issued_call TRACK_SHP P rid p pts deps) = rid
  /\ call_configured P (issued_call TRACK_SHP P rid p pts deps).
Proof.
  unfold issued_call.
  destruct (do_tracking P) eqn:Ht; simpl.
  - destruct (negb (Z.eqb (shape p) TRACK_SHP)); simpl; auto.
  - auto.
Qed.

Lemma cases_calls rid r s res s' :
  step_cases TRACK_SHP P rid r s res s' ->
  calls s' = calls s
  \/ exists p pts deps,
       calls s' = calls s ++ [issued_call TRACK_SHP P rid p pts deps].
Proof.
  intros H. destruct H; try (left; reflexivity);
    right; do 3 eexists; reflexivity.
Qed.

(** Every invocation that [process] makes, whether it returns or raises,
    carries the run identifier of the entry ([None] without [run_info]) and
    either the configured [dedx] or [track=True]; the latter only under
    [do_tracking]. *)
Theorem calibration_calls_configured s :
  exists cs,
    calls (snd (calibration_process TRACK_SHP P s)) = calls s ++ cs
    /\ Forall (fun c => call_run_id c = run_info s /\ call_configured P c) cs.
Proof.
  apply (process_invariant
           (fun s1 => exists cs, calls s1 = calls s ++ cs
              /\ Forall (fun c => call_run_id c = run_info s
                                  /\ call_configured P c) cs)).
  - intros r s0 (cs & Hcs & Hall).
    destruct (cases_calls (run_info s) r s0 _ _
                (step_cases_intro num TRACK_SHP P (run_info s) r s0))
      as [->|(p & pts & deps & ->)].
    + exists cs. split; assumption.
    + exists (cs ++ [issued_call TRACK_SHP P (run_info s) p pts deps]).
      split; [rewrite Hcs, app_assoc; reflexivity|].
      apply Forall_app. split; [exact Hall|].
      apply Forall_cons. split; [apply issued_call_configured|apply Forall_nil_2].
  - exists []. split; [rewrite app_nil_r; reflexivity|apply Forall_nil_2].
Qed.

Lemma has_points_frame s s1 r p :
  calib_frame s s1 -> particles s1 !! r = Some p ->
  has_points P s r = with_points P p.
Proof.
  intros Hf Hp. destruct (calib_frame_back num s s1 r p Hf Hp) as (p0 & Hp0 & Hs).
  unfold has_points. rewrite Hp0.
  symmetry. apply same_static_with_points. exact Hs.
Qed.

Lemma loop_call_count rid s refs : forall s1 s',
  calib_frame s s1 ->
  for_each refs (step rid) s1 = (inr tt, s') ->
  length (calls s')
  = length (calls s1) + length (List.filter (has_points P s) refs).
Proof.
  induction refs as [|r refs IH]; intros s1 s' Hf Hrun.
  - injection Hrun as <-. simpl. lia.
  - rewrite for_each_cons in Hrun.
    destruct (step rid r s1) as [[e|[]] s2] eqn:Hstep; [discriminate|].
    pose proof (step_cases_run num TRACK_SHP P rid r s1 _ _ Hstep) as Hc.
    assert (Hf2 : calib_frame s s2).
    { eapply calib_frame_trans; [exact Hf|eapply cases_frame; exact Hc]. }
    rewrite (IH s2 s' Hf2 Hrun). simpl.
    inversion Hc; subst.
    + match goal with H : particles s2 !! r = Some ?x |- _ =>
        rewrite (has_points_frame s s2 r x Hf H) end.
      unfold with_points.
      match goal with H : get_points _ _ = inr [] |- _ => rewrite H end.
      lia.
    + match goal with H : particles s1 !! r = Some ?x |- _ =>
        rewrite (has_points_frame s s1 r x Hf H);
        rewrite (points_seen num P x pts) by assumption end.
      simpl. rewrite length_app. simpl. lia.
    + match goal with H : particles s1 !! r = Some ?x |- _ =>
        rewrite (has_points_frame s s1 r x Hf H);
        rewrite (points_seen num P x pts) by assumption end.
      simpl. rewrite length_app. simpl. lia.
Qed.

(** When [process] returns, it has invoked the collaborator once for each
    visit of a particle with points, and not otherwise. *)
Theorem calibration_call_count s s' refs :
  flat_refs (obj_keys (cp_base P)) (collections s) = Some refs ->
  calibration_process TRACK_SHP P s = (inr tt, s') ->
  length (calls s')
  = length (calls s) + length (List.filter (has_points P s) refs).
Proof.
  intros Hflat Hrun.
  rewrite (process_flat num TRACK_SHP P s refs Hflat) in Hrun.
  eapply loop_call_count; [apply calib_frame_refl|exact Hrun].
Qed.

(** On an entry whose particles all have their points in centimeters and
    none of them any point, [process] returns and changes nothing. *)
Theorem calibration_nothing_to_do s :
  (forall k, k ∈ obj_keys (cp_base P) ->
     exists rs, collections s !! k = Some rs
       /\ forall r, r ∈ rs -> exists p,
            particles s !! r = Some p /\ check_units p = inr tt
            /\ get_points (cp_base P) p = inr []) ->
  calibration_process TRACK_SHP P s = (inr tt, s).
Proof.
  intros H. unfold calibration_process, bind, gets. simpl.
  induction (obj_keys (cp_base P)) as [|k ks IH]; [reflexivity|].
  destruct (H k ltac:(left)) as (rs & Hc & Hrs).
  rewrite for_each_cons.
  unfold calibration_process_key at 1, data_collection, bind, gets. simpl.
  rewrite Hc. simpl.
  assert (Hin : for_each rs (step (run_info s)) s = (inr tt, s)).
  { clear Hc. induction rs as [|r rs IHr]; [reflexivity|].
    destruct (Hrs r ltac:(left)) as (p & Hp & Hu & Hpts).
    rewrite for_each_cons,
      (step_no_points num TRACK_SHP P (run_info s) r s p Hp Hu Hpts).
    apply IHr. intros r' Hr'. apply Hrs. right. exact Hr'. }
  rewrite Hin. apply IH. intros k' Hk'. apply H. right. exact Hk'.
Qed.

(** [process] binds no key of [data] but the resolved truth tensor key. *)
Theorem calibration_rebinds_truth_key_only s k :
  k <> truth_dep_key P ->
  tensors (snd (calibration_process TRACK_SHP P s)) !! k = tensors s !! k.
Proof.
  intros Hk.
  apply (process_invariant (fun s1 => tensors s1 !! k = tensors s !! k));
    [|reflexivity].
  intros r s0 H0.
  pose proof (step_cases_intro num TRACK_SHP P (run_info s) r s0) as Hc.
  destruct Hc; try exact H0.
  simpl. rewrite lookup_insert_ne by congruence. exact H0.
Qed.

(** Calibration does not compose to itself: after a successful visit of a
    reconstructed particle, a further visit hands the corrected sequence,
    not the raw one, to the collaborator. *)
Theorem calibration_second_visit rid r s p pts l deps v t arr arr' :
  particles s !! r = Some p -> check_units p = inr tt ->
  get_points (cp_base P) p = inr pts -> pts <> [] ->
  getattr_dep p "depositions" = inr l -> arrays s !! l = Some deps ->
  collaborate (calibrator P) (issued_call TRACK_SHP P rid p pts deps) = inr v ->
  is_truth p = false ->
  tensors s !! "depositions" = Some t -> arrays s !! t = Some arr ->
  setitem (index p) v arr = inr arr' ->
  exists s', step rid r s = (inr tt, s')
    /\ calls s' = calls s ++ [issued_call TRACK_SHP P rid p pts deps]
    /\ calls (snd (step rid r s'))
       = calls s'
         ++ [issued_call TRACK_SHP P rid
               (set_dep_attr "depositions" (length (arrays s)) p) pts v].
Proof.
  intros Hp Hu Hpts Hne Hl Hd Hc Ht Hten Harr Hset.
  rewrite (step_reco_write_back num TRACK_SHP P rid r s p pts l deps v)
    by assumption.
  unfold write_back, data_tensor, load_array, bind, gets, lift, modify. simpl.
  rewrite Hten. simpl.
  rewrite (lookup_app_l_Some _ _ _ _ Harr). simpl. rewrite Hset.
  eexists. split; [reflexivity|]. split; [reflexivity|].
  apply (step_calls num TRACK_SHP P rid r _
           (set_dep_attr "depositions" (length (arrays s)) p) pts
           (length (arrays s)) v).
  - simpl. rewrite list_lookup_alter_eq, Hp. reflexivity.
  - exact Hu.
  - exact Hpts.
  - exact Hne.
  - unfold getattr_dep. simpl. rewrite lookup_insert_eq. reflexivity.
  - simpl. apply lookup_lt_Some in Harr.
    rewrite list_lookup_insert_ne by lia.
    apply list_lookup_middle. reflexivity.
Qed.
End CalibrationInvariants.

Section CalibrationCollaborator.
Variable num : Type.
Variable resolve_obj_keys : string -> string -> list string.
Variable Cfg : Type.
Variable CalibrationManager : Cfg -> Exn + Calibrator num.

(** The constructor handles no exception of [CalibrationManager]: when
    building the collaborator from the forwarded configuration raises, the
    constructor raises the same and no processor exists.  A constructed
    processor holds the collaborator that [CalibrationManager] returned
    and the [dedx] and [do_tracking] it was given. *)
Theorem calibration_init_outcome dx trk obj_type rmode tpm cfg :
  (forall e, CalibrationManager cfg = inl e ->
     CalibrationProcessor_init resolve_obj_keys CalibrationManager
       dx trk obj_type rmode tpm cfg = inl e)
  /\ (forall P,
        CalibrationProcessor_init resolve_obj_keys CalibrationManager
          dx trk obj_type rmode tpm cfg = inr P ->
        CalibrationManager cfg = inr (calibrator P)
        /\ dedx P = dx /\ do_tracking P = trk).
Proof.
  unfold CalibrationProcessor_init. split.
  - intros e ->. reflexivity.
  - intros P.
    destruct (CalibrationManager cfg) as [e|cal]; [discriminate|].
    destruct (dict_get _dep_attr_map _) as [e|attr]; [discriminate|].
    destruct (dict_get _dep_map _) as [e|key]; [discriminate|].
    intros [= <-]. repeat split.
Qed.
End CalibrationCollaborator.

(** ** The further properties at concrete entries *)

(** The truth collection is missing: the reconstructed shower has its
    energy, then [KeyError]. *)
Lemma calo_process_missing_key_witness :
  calo_process Z.mul Demo.zsum Demo.TRACK_SHP Scenario.calo Edge.calo_reco_only
  = (inl (KeyError "truth_particles"),
     snd (for_each (S := State Z) ["reco_particles"]
            (calo_process_key Z.mul Demo.zsum Demo.TRACK_SHP Scenario.calo)
            Edge.calo_reco_only)).
Proof.
  apply (calo_process_missing_key Z Z.mul Demo.zsum Demo.TRACK_SHP Scenario.calo
           Edge.calo_reco_only ["reco_particles"] "truth_particles" []);
    reflexivity.
Defined.

Example calo_reco_only_energy :
  map calo_ke
      (particles (snd (calo_process Z.mul Demo.zsum Demo.TRACK_SHP Scenario.calo
                         Edge.calo_reco_only)))
  = [Some 36%Z].
Proof. reflexivity. Qed.

Lemma calo_process_idempotent_witness :
  exists s',
    calo_process Z.mul Demo.zsum Demo.TRACK_SHP Scenario.calo Scenario.entry_calo
      = (inr tt, s')
    /\ calo_process Z.mul Demo.zsum Demo.TRACK_SHP Scenario.calo s' = (inr tt, s').
Proof.
  apply (calo_process_idempotent Z Z.mul Demo.zsum Demo.TRACK_SHP Scenario.calo
           Scenario.entry_calo).
  intros k Hk.
  apply elem_of_cons in Hk as [->|Hk].
  - exists [0; 1; 2]. split; [reflexivity|].
    intros r Hr.
    apply elem_of_cons in Hr as [->|Hr];
      [eexists; exists 0; eexists; repeat split; reflexivity|].
    apply elem_of_cons in Hr as [->|Hr];
      [eexists; exists 0; eexists; repeat split; reflexivity|].
    apply elem_of_cons in Hr as [->|Hr];
      [eexists; exists 1; eexists; repeat split; reflexivity|].
    inversion Hr.
  - apply elem_of_cons in Hk as [->|Hk]; [|inversion Hk].
    exists []. split; [reflexivity|]. intros r Hr. inversion Hr.
Defined.

Lemma calibration_first_failure_aborts_witness :
  calibration_process Demo.TRACK_SHP Edge.reco_only Edge.no_tensor
  = (inl (KeyError "depositions"),
     snd (calibration_process_part Demo.TRACK_SHP Edge.reco_only None 0
            Edge.no_tensor)).
Proof.
  apply (calibration_first_failure_aborts Z Demo.TRACK_SHP Edge.reco_only
           Edge.no_tensor [] "reco_particles" [] [] 0 []
           Edge.no_tensor Edge.no_tensor);
    reflexivity.
Defined.

Lemma calibration_missing_key_witness :
  calibration_process Demo.TRACK_SHP (Scenario.calibration false "both" "points")
    Scenario.entry_skip
  = (inl (KeyError "truth_particles"), Scenario.entry_skip).
Proof.
  apply (calibration_missing_key Z Demo.TRACK_SHP
           (Scenario.calibration false "both" "points") Scenario.entry_skip
           ["reco_particles"] "truth_particles" []);
    reflexivity.
Defined.

Lemma calibration_needs_depositions_witness :
  calibration_process_part Demo.TRACK_SHP
    (Scenario.calibration false "truth" "points") None 0 Edge.no_depositions
  = (inl (AttributeError "depositions"), Edge.no_depositions).
Proof.
  apply (calibration_needs_depositions Z Demo.TRACK_SHP
           (Scenario.calibration false "truth" "points") None 0
           Edge.no_depositions Edge.truth_without_depositions [Demo.pt 3]);
    first [reflexivity | discriminate].
Defined.

Lemma calibration_collaborator_failure_witness :
  exists s',
    calibration_process_part Demo.TRACK_SHP (Edge.with_calibrator Edge.failing_cal)
      (Some 7%Z) 0 Scenario.entry
    = (inl (CollaboratorError 1), s')
    /\ particles s' = particles Scenario.entry
    /\ arrays s' = arrays Scenario.entry
    /\ tensors s' = tensors Scenario.entry
    /\ calls s' = calls Scenario.entry
         ++ [issued_call Demo.TRACK_SHP (Edge.with_calibrator Edge.failing_cal)
               (Some 7%Z) Edge.shower [Demo.pt 1; Demo.pt 2] [10; 20]%Z].
Proof.
  apply (calibration_collaborator_failure Z Demo.TRACK_SHP
           (Edge.with_calibrator Edge.failing_cal) (Some 7%Z) 0 Scenario.entry
           Edge.shower [Demo.pt 1; Demo.pt 2] 1 [10; 20]%Z);
    first [reflexivity | discriminate].
Defined.

Lemma calibration_missing_tensor_witness :
  exists s',
    calibration_process_part Demo.TRACK_SHP Edge.reco_only None 0 Edge.no_tensor
    = (inl (KeyError "depositions"), s')
    /\ particles s' !! 0
       = Some (set_dep_attr "depositions" (length (arrays Edge.no_tensor))
                 (Demo.reco_particle Demo.SHOWR_SHP [0; 1]
                    [Demo.pt 1; Demo.pt 2] 0))
    /\ arrays s' = arrays Edge.no_tensor ++ [[20; 40]%Z]
    /\ tensors s' = tensors Edge.no_tensor
    /\ calls s' = calls Edge.no_tensor
         ++ [issued_call Demo.TRACK_SHP Edge.reco_only None
               (Demo.reco_particle Demo.SHOWR_SHP [0; 1]
                  [Demo.pt 1; Demo.pt 2] 0)
               [Demo.pt 1; Demo.pt 2] [10; 20]%Z].
Proof.
  apply (calibration_missing_tensor Z Demo.TRACK_SHP Edge.reco_only None 0
           Edge.no_tensor
           (Demo.reco_particle Demo.SHOWR_SHP [0; 1] [Demo.pt 1; Demo.pt 2] 0)
           [Demo.pt 1; Demo.pt 2] 0 [10; 20]%Z [20; 40]%Z);
    first [reflexivity | discriminate].
Defined.

Lemma calibration_index_out_of_range_witness :
  exists s',
    calibration_process_part Demo.TRACK_SHP Edge.reco_only None 0
      Edge.beyond_tensor
    = (inl IndexError, s')
    /\ particles s' !! 0
       = Some (set_dep_attr "depositions" (length (arrays Edge.beyond_tensor))
                 Edge.shower_beyond)
    /\ arrays s' = arrays Edge.beyond_tensor ++ [[20; 40]%Z]
    /\ arrays s' !! 0 = Some [10; 20; 30]%Z.
Proof.
  apply (calibration_index_out_of_range Z Demo.TRACK_SHP Edge.reco_only None 0
           Edge.beyond_tensor Edge.shower_beyond [Demo.pt 1; Demo.pt 2] 1
           [10; 20]%Z [20; 40]%Z 0 [10; 20; 30]%Z 5);
    try first [reflexivity | discriminate].
  - right. left.
  - simpl. lia.
Defined.

Lemma calibration_length_mismatch_witness :
  exists s',
    calibration_process_part Demo.TRACK_SHP (Edge.with_calibrator Edge.growing_cal)
      (Some 7%Z) 0 Scenario.entry
    = (inl ValueError, s')
    /\ particles s' !! 0
       = Some (set_dep_attr "depositions" (length (arrays Scenario.entry))
                 Edge.shower)
    /\ arrays s' = arrays Scenario.entry ++ [[10; 20; 0]%Z]
    /\ arrays s' !! 0 = Some [10; 20; 30]%Z.
Proof.
  apply (calibration_length_mismatch Z Demo.TRACK_SHP
           (Edge.with_calibrator Edge.growing_cal) (Some 7%Z) 0 Scenario.entry
           Edge.shower [Demo.pt 1; Demo.pt 2] 1 [10; 20]%Z [10; 20; 0]%Z
           0 [10; 20; 30]%Z);
    try first [reflexivity | discriminate].
  apply Forall_cons. split; [simpl; lia|].
  apply Forall_cons. split; [simpl; lia|apply Forall_nil_2].
Defined.

Lemma calibration_call_count_witness :
  length (calls Runs.after)
  = length (calls Scenario.entry)
    + length (List.filter (has_points Runs.P Scenario.entry) [0; 1]).
Proof.
  apply (calibration_call_count Z Demo.TRACK_SHP Runs.P Scenario.entry Runs.after
           [0; 1]); reflexivity.
Defined.

Lemma calibration_nothing_to_do_witness :
  calibration_process Demo.TRACK_SHP Edge.reco_only Scenario.entry_skip
  = (inr tt, Scenario.entry_skip).
Proof.
  apply (calibration_nothing_to_do Z Demo.TRACK_SHP Edge.reco_only
           Scenario.entry_skip).
  intros k Hk. apply elem_of_cons in Hk as [->|Hk]; [|inversion Hk].
  exists [0]. split; [reflexivity|].
  intros r Hr. apply elem_of_cons in Hr as [->|Hr]; [|inversion Hr].
  exists Scenario.no_points. repeat split.
Defined.

Lemma calibration_rebinds_truth_key_only_witness :
  tensors (snd (calibration_process Demo.TRACK_SHP Runs.P Scenario.entry))
    !! "depositions"
  = tensors Scenario.entry !! "depositions".
Proof.
  apply (calibration_rebinds_truth_key_only Z Demo.TRACK_SHP Runs.P Scenario.entry
           "depositions").
  discriminate.
Defined.

Lemma calibration_second_visit_witness :
  exists s',
    calibration_process_part Demo.TRACK_SHP Edge.reco_only (Some 7%Z) 0
      Scenario.entry = (inr tt, s')
    /\ calls s' = calls Scenario.entry
         ++ [issued_call Demo.TRACK_SHP Edge.reco_only (Some 7%Z) Edge.shower
               [Demo.pt 1; Demo.pt 2] [10; 20]%Z]
    /\ calls (snd (calibration_process_part Demo.TRACK_SHP Edge.reco_only
                     (Some 7%Z) 0 s'))
       = calls s'
         ++ [issued_call Demo.TRACK_SHP Edge.reco_only (Some 7%Z)
               (set_dep_attr "depositions" (length (arrays Scenario.entry))
                  Edge.shower)
               [Demo.pt 1; Demo.pt 2] [20; 40]%Z].
Proof.
  apply (calibration_second_visit Z Demo.TRACK_SHP Edge.reco_only (Some 7%Z) 0
           Scenario.entry Edge.shower [Demo.pt 1; Demo.pt 2] 1 [10; 20]%Z
           [20; 40]%Z 0 [10; 20; 30]%Z [20; 40; 30]%Z);
    first [reflexivity | discriminate].
Defined.

(** A collaborator that cannot be built, and the processor of [Runs]. *)
Lemma calibration_init_outcome_witness :
  CalibrationProcessor_init Demo.resolve
    (fun _ : unit => inl ValueError : Exn + Calibrator Z)
    2%Z false "particle" "both" "points_adapt" tt = inl ValueError
  /\ (Demo.manager tt = inr (calibrator Runs.P)
      /\ dedx Runs.P = 2%Z /\ do_tracking Runs.P = false).
Proof.
  split.
  - apply (proj1 (calibration_init_outcome Z Demo.resolve unit
                    (fun _ => inl ValueError) 2%Z false "particle" "both"
                    "points_adapt" tt)).
    reflexivity.
  - apply (proj2 (calibration_init_outcome Z Demo.resolve unit Demo.manager
                    2%Z false "particle" "both" "points" tt) Runs.P).
    reflexivity.
Defined.

(** ** The energy in binary64 *)

Lemma binary64_nan (f : PrimFloat.float) :
  PrimFloat.is_nan f = true -> FloatOps.Prim2SF f = SpecFloat.S754_nan.
Proof.
  unfold PrimFloat.is_nan. rewrite FloatAxioms.eqb_spec.
  destruct (FloatOps.Prim2SF f) as [b|b| |b m e]; try reflexivity.
  - destruct b; discriminate.
  - destruct b; discriminate.
  - unfold SpecFloat.SFeqb, SpecFloat.SFcompare.
    rewrite Z.compare_refl, Pos.compare_cont_refl.
    destruct b; discriminate.
Qed.

Lemma binary64_infinity (f : PrimFloat.float) :
  PrimFloat.is_infinity f = true ->
  exists b, FloatOps.Prim2SF f = SpecFloat.S754_infinity b.
Proof.
  unfold PrimFloat.is_infinity.
  rewrite FloatAxioms.eqb_spec, FloatAxioms.abs_spec.
  destruct (FloatOps.Prim2SF f) as [b|b| |b m e].
  - discriminate.
  - intros _. exists b. reflexivity.
  - discriminate.
  - discriminate.
Qed.

(** A finite factor times zero compares equal to zero. *)
Lemma binary64_finite_times_zero (f : PrimFloat.float) :
  PrimFloat.is_nan f = false -> PrimFloat.is_infinity f = false ->
  PrimFloat.eqb (PrimFloat.mul f 0%float) 0%float = true.
Proof.
  intros Hn Hi.
  rewrite FloatAxioms.eqb_spec, FloatAxioms.mul_spec.
  change (FloatOps.Prim2SF 0%float) with (SpecFloat.S754_zero false).
  destruct (FloatOps.Prim2SF f) as [b|b| |b m e] eqn:E.
  - reflexivity.
  - exfalso. unfold PrimFloat.is_infinity in Hi.
    rewrite FloatAxioms.eqb_spec, FloatAxioms.abs_spec, E in Hi.
    destruct b; vm_compute in Hi; discriminate.
  - exfalso. unfold PrimFloat.is_nan in Hn.
    rewrite FloatAxioms.eqb_spec, E in Hn. vm_compute in Hn. discriminate.
  - reflexivity.
Qed.

(** An infinite or undefined factor times zero is undefined. *)
Lemma binary64_other_times_zero (f : PrimFloat.float) :
  PrimFloat.is_nan f = true \/ PrimFloat.is_infinity f = true ->
  PrimFloat.is_nan (PrimFloat.mul f 0%float) = true.
Proof.
  intros H. unfold PrimFloat.is_nan at 1.
  rewrite FloatAxioms.eqb_spec, FloatAxioms.mul_spec.
  change (FloatOps.Prim2SF 0%float) with (SpecFloat.S754_zero false).
  destruct H as [H|H].
  - rewrite (binary64_nan f H). reflexivity.
  - destruct (binary64_infinity f H) as [b ->]. reflexivity.
Qed.

Section CaloEnergyBinary64.
Variable np_sum : list PrimFloat.float -> PrimFloat.float.
Variable TRACK_SHP : Z.
Variable P : CalorimetricEnergyProcessor PrimFloat.float.

(** C1, as the code computes it in binary64: [process] returns, and every
    particle of the configured collections then carries [calo_ke =
    scaling * sum(depositions)] if it is a track and [(scaling *
    shower_fudge) * sum(depositions)] otherwise, whatever [np.sum]
    computes.  With no depositions, and the empty sum being zero as numpy
    has it, the energy is the factor times zero: it compares equal to zero
    when the factor is finite, and is undefined (nan) when the factor is
    infinite or undefined. *)
Theorem calo_ke_assigned (s : State PrimFloat.float) :
  (forall k, k ∈ obj_keys (calo_base P) ->
     exists rs, collections s !! k = Some rs
       /\ forall r, r ∈ rs -> exists p l deps,
            particles s !! r = Some p
            /\ get_depositions (calo_base P) p = inr l
            /\ arrays s !! l = Some deps) ->
  exists s', calo_process PrimFloat.mul np_sum TRACK_SHP P s = (inr tt, s')
    /\ forall k rs r p l deps,
         k ∈ obj_keys (calo_base P) -> collections s !! k = Some rs -> r ∈ rs ->
         particles s !! r = Some p ->
         get_depositions (calo_base P) p = inr l ->
         arrays s !! l = Some deps ->
         exists p', particles s' !! r = Some p'
           /\ (shape p = TRACK_SHP ->
                 calo_ke p' = Some (PrimFloat.mul (scaling P) (np_sum deps)))
           /\ (shape p <> TRACK_SHP ->
                 calo_ke p'
                 = Some (PrimFloat.mul
                           (PrimFloat.mul (scaling P) (shower_fudge P))
                           (np_sum deps)))
           /\ (deps = [] -> np_sum [] = 0%float ->
                 exists z, calo_ke p' = Some z
                   /\ (PrimFloat.is_nan
                         (calo_factor PrimFloat.mul TRACK_SHP P p) = false ->
                       PrimFloat.is_infinity
                         (calo_factor PrimFloat.mul TRACK_SHP P p) = false ->
                       PrimFloat.eqb z 0%float = true)
                   /\ (PrimFloat.is_nan
                         (calo_factor PrimFloat.mul TRACK_SHP P p) = true
                       \/ PrimFloat.is_infinity
                            (calo_factor PrimFloat.mul TRACK_SHP P p) = true ->
                       PrimFloat.is_nan z = true)).
Proof.
  intros Hready.
  destruct (calo_ke_structure PrimFloat.float PrimFloat.mul np_sum TRACK_SHP P s
              Hready) as (s' & Hrun & Hall).
  exists s'. split; [exact Hrun|].
  intros k rs r p l deps Hk Hc Hr Hp Hl Hd.
  destruct (Hall k rs r p l deps Hk Hc Hr Hp Hl Hd) as (p' & Hp' & Hke).
  exists p'. split; [exact Hp'|]. rewrite Hke.
  split; [|split].
  - intros Hs. unfold calo_factor. rewrite Hs, Z.eqb_refl. reflexivity.
  - intros Hs. unfold calo_factor.
    destruct (Z.eqb_spec (shape p) TRACK_SHP); [contradiction|reflexivity].
  - intros -> ->. eexists. split; [reflexivity|]. split.
    + apply binary64_finite_times_zero.
    + apply binary64_other_times_zero.
Qed.
End CaloEnergyBinary64.

(** The spec's numbers, [scaling = 2.0] and [shower_fudge = 1.5]. *)
Lemma calo_ke_assigned_witness :
  exists s',
    calo_process PrimFloat.mul Binary64.fsum Demo.TRACK_SHP
      (Binary64.processor 2%float 1.5%float) Binary64.entry = (inr tt, s')
    /\ forall k rs r p l deps,
         k ∈ obj_keys (calo_base (Binary64.processor 2%float 1.5%float)) ->
         collections Binary64.entry !! k = Some rs -> r ∈ rs ->
         particles Binary64.entry !! r = Some p ->
         get_depositions (calo_base (Binary64.processor 2%float 1.5%float)) p
           = inr l ->
         arrays Binary64.entry !! l = Some deps ->
         exists p', particles s' !! r = Some p'
           /\ (shape p = Demo.TRACK_SHP ->
                 calo_ke p' = Some (PrimFloat.mul 2%float (Binary64.fsum deps)))
           /\ (shape p <> Demo.TRACK_SHP ->
                 calo_ke p'
                 = Some (PrimFloat.mul (PrimFloat.mul 2%float 1.5%float)
                           (Binary64.fsum deps)))
           /\ (deps = [] -> Binary64.fsum [] = 0%float ->
                 exists z, calo_ke p' = Some z
                   /\ (PrimFloat.is_nan
                         (calo_factor PrimFloat.mul Demo.TRACK_SHP
                            (Binary64.processor 2%float 1.5%float) p) = false ->
                       PrimFloat.is_infinity
                         (calo_factor PrimFloat.mul Demo.TRACK_SHP
                            (Binary64.processor 2%float 1.5%float) p) = false ->
                       PrimFloat.eqb z 0%float = true)
                   /\ (PrimFloat.is_nan
                         (calo_factor PrimFloat.mul Demo.TRACK_SHP
                            (Binary64.processor 2%float 1.5%float) p) = true
                       \/ PrimFloat.is_infinity
                            (calo_factor PrimFloat.mul Demo.TRACK_SHP
                               (Binary64.processor 2%float 1.5%float) p) = true ->
                       PrimFloat.is_nan z = true)).
Proof.
  apply (calo_ke_assigned Binary64.fsum Demo.TRACK_SHP
           (Binary64.processor 2%float 1.5%float) Binary64.entry).
  intros k Hk.
  apply elem_of_cons in Hk as [->|Hk]; [|inversion Hk].
  exists [0; 1; 2]. split; [reflexivity|].
  intros r Hr.
  apply elem_of_cons in Hr as [->|Hr];
    [eexists; exists 0; eexists; repeat split; reflexivity|].
  apply elem_of_cons in Hr as [->|Hr];
    [eexists; exists 0; eexists; repeat split; reflexivity|].
  apply elem_of_cons in Hr as [->|Hr];
    [eexists; exists 1; eexists; repeat split; reflexivity|].
  inversion Hr.
Defined.

(** The three energies of that entry: 18, 12 and 0. *)
Example binary64_energies :
  map calo_ke
      (particles (snd (calo_process PrimFloat.mul Binary64.fsum Demo.TRACK_SHP
                         (Binary64.processor 2%float 1.5%float) Binary64.entry)))
  = [Some 18%float; Some 12%float; Some 0%float].
Proof. vm_compute. reflexivity. Qed.

(** With an infinite [scaling] the particle without depositions gets an
    energy that is undefined, and that does not compare equal to zero. *)
Lemma calo_ke_assigned_counterexample :
  exists s' p' z,
    calo_process PrimFloat.mul Binary64.fsum Demo.TRACK_SHP
      (Binary64.processor PrimFloat.infinity 1.5%float) Binary64.entry
      = (inr tt, s')
    /\ arrays Binary64.entry !! 1 = Some []
    /\ get_depositions
         (calo_base (Binary64.processor PrimFloat.infinity 1.5%float))
         (Binary64.particle Demo.SHOWR_SHP 1) = inr 1
    /\ particles s' !! 2 = Some p'
    /\ calo_ke p' = Some z
    /\ PrimFloat.is_nan z = true
    /\ PrimFloat.eqb z 0%float = false
    /\ calo_ke p' <> Some 0%float.
Proof.
  eexists. eexists. exists PrimFloat.nan.
  split; [vm_compute; reflexivity|].
  split; [reflexivity|]. split; [reflexivity|].
  split; [vm_compute; reflexivity|].
  split; [reflexivity|]. split; [reflexivity|]. split; [reflexivity|].
  intros H.
  apply (f_equal (fun o => match o with
                           | Some x => PrimFloat.is_nan x
                           | None => false
                           end)) in H.
  vm_compute in H. discriminate.
Qed.

(** The truth fragment of [Interleaved.entry], visited before the
    reconstructed shower, under the point mode [points]. *)
Lemma truth_tensor_replaced_witness :
  let d := length (arrays Interleaved.entry) in
  (exists s2,
     calibration_process_part Demo.TRACK_SHP Interleaved.P
       (run_info Interleaved.entry) 0 Interleaved.entry = (inr tt, s2)
     /\ tensors s2
        = <[truth_dep_key Interleaved.P := d]> (tensors Interleaved.entry)
     /\ particles s2 !! 0
        = Some (set_dep_attr (truth_dep_attr Interleaved.P) d
                  Interleaved.truth_fragment)
     /\ arrays s2 = arrays Interleaved.entry ++ [[2; 4; 6]%Z])
  /\ tensors Interleaved.after !! truth_dep_key Interleaved.P = Some d
  /\ (exists p', particles Interleaved.after !! 0 = Some p'
        /\ dep_attrs p' !! truth_dep_attr Interleaved.P = Some d)
  /\ is_Some (arrays Interleaved.after !! d)
  /\ (truth_dep_key Interleaved.P <> "depositions" ->
      tensors_valid Interleaved.entry ->
      arrays Interleaved.after !! d = Some [2; 4; 6]%Z)
  /\ ((forall r' q, r' ∈ [1] -> particles Interleaved.entry !! r' = Some q ->
         is_truth q = false -> with_points Interleaved.P q = false) ->
      arrays Interleaved.after !! d = Some [2; 4; 6]%Z).
Proof.
  apply (truth_tensor_replaced Z Demo.TRACK_SHP Interleaved.P
           Interleaved.entry Interleaved.after
           [] 0 [1] Interleaved.entry Interleaved.truth_fragment
           [Demo.pt 1; Demo.pt 2; Demo.pt 3] 1 [1; 2; 3]%Z [2; 4; 6]%Z);
    try reflexivity.
  - discriminate.
  - intros r' q Hin Hq.
    apply elem_of_cons in Hin as [->|Hin]; [|inversion Hin].
    injection Hq as <-. reflexivity.
Defined.

(** Under the point mode [points_adapt] the truth tensor key is
    [depositions].  The truth fragment of [Interleaved.entry] is the last
    truth object with points and the collaborator returns 2, 4, 6 for it;
    the reconstructed shower visited next writes 20, 40 into that array,
    so the shared truth tensor and the attribute of the fragment end as
    20, 40, 6. *)
Lemma truth_tensor_replaced_counterexample :
  truth_dep_key Interleaved.P_adapt = "depositions"
  /\ truth_dep_attr Interleaved.P_adapt = "depositions_adapt_q"
  /\ calibrator_call (calibrator Interleaved.P_adapt)
       [Demo.pt 1; Demo.pt 2; Demo.pt 3] [1; 2; 3]%Z
       (sources Interleaved.truth_fragment) None (dedx Interleaved.P_adapt)
     = inr [2; 4; 6]%Z
  /\ calibration_process Demo.TRACK_SHP Interleaved.P_adapt Interleaved.entry
     = (inr tt, Interleaved.after_adapt)
  /\ tensors Interleaved.after_adapt !! "depositions" = Some 3
  /\ (exists p', particles Interleaved.after_adapt !! 0 = Some p'
        /\ dep_attrs p' !! "depositions_adapt_q" = Some 3)
  /\ arrays Interleaved.after_adapt !! 3 = Some [20; 40; 6]%Z
  /\ arrays Interleaved.after_adapt !! 3 <> Some [2; 4; 6]%Z.
Proof.
  split; [reflexivity|]. split; [reflexivity|]. split; [reflexivity|].
  split; [reflexivity|]. split; [reflexivity|].
  split; [eexists; split; reflexivity|].
  split; [reflexivity|]. vm_compute. discriminate.
Qed.

(** numpy compares the shapes before it looks at the positions: a value
    of the wrong length is a [ValueError] also when a position is out of
    range. *)
Example setitem_shape_before_bounds :
  setitem [0; 5] [1; 2; 3]%Z [7; 8; 9]%Z = inl ValueError.
Proof. reflexivity. Qed.
